(** * The static-site generation pipeline of astro

    A shallow embedding of [packages/astro/src/core/build/generate.ts] and of
    the part of [core/build/internal.ts] it drives, together with
    [runHookBuildGenerated] of [integrations/index.ts].

    The generator is sequential JavaScript that mutates a handful of shared
    objects (the [builtPaths] set, [opts.routeCache], [opts.pageNames],
    [route.distURL]) and talks to the outside world (logger, renderer,
    file system, integration hooks).  It is embedded as a state-and-exception
    monad [Build]: the shared objects are fields of [BuildState], the
    outside world is recorded as a chronological [trace] of [Event]s, and a
    JavaScript [throw] (or a rejected promise) is the [Throw] outcome.
    Every [await] is sequential, so promises are plain computations.

    Collaborators whose code lives in other modules are gathered in the
    record [Externals]; nothing is assumed about them beyond their types. *)

From Stdlib Require Import Ascii.
From stdpp Require Import gmap strings list.

Local Open Scope string_scope.
Local Open Scope list_scope.

(** ** JavaScript strings *)

Module Js.

Definition slash : ascii := "/"%char.
Definition colon : ascii := ":"%char.

(** [s.startsWith(p)] *)
Fixpoint startsWith (p s : string) : bool :=
  match p, s with
  | EmptyString, _ => true
  | String a p', String b s' => if Ascii.eqb a b then startsWith p' s' else false
  | String _ _, EmptyString => false
  end.

(** [s.includes(p)] *)
Fixpoint includes (p s : string) : bool :=
  if startsWith p s then true
  else match s with
       | EmptyString => false
       | String _ s' => includes p s'
       end.

(** [s.slice(n)] for [0 <= n] *)
Fixpoint sliceFrom (n : nat) (s : string) : string :=
  match n, s with
  | O, _ => s
  | S n', String _ s' => sliceFrom n' s'
  | S _, EmptyString => EmptyString
  end.

(** [s.replace(p, r)] for a string pattern [p] and a replacement [r]
    without [$]: the first occurrence of [p] is replaced. *)
Fixpoint replaceFirst (p r s : string) : string :=
  if startsWith p s then r +:+ sliceFrom (String.length p) s
  else match s with
       | EmptyString => EmptyString
       | String c s' => String c (replaceFirst p r s')
       end.

(** [s.split(':')], as the list of segments *)
Fixpoint splitColon (s : string) : list string :=
  match s with
  | EmptyString => [EmptyString]
  | String c s' =>
      if Ascii.eqb c colon then EmptyString :: splitColon s'
      else match splitColon s' with
           | seg :: segs => String c seg :: segs
           | [] => [String c EmptyString]
           end
  end.

(** [s.endsWith('/')] *)
Fixpoint endsWithSlash (s : string) : bool :=
  match s with
  | EmptyString => false
  | String c EmptyString => Ascii.eqb c slash
  | String _ s' => endsWithSlash s'
  end.

(** [s.replace(/\/?$/, '/')]: the leftmost match of an optional slash
    followed by the end of input is the final slash when there is one, and
    the empty match at the end otherwise. *)
Definition ensureTrailingSlash (s : string) : string :=
  if endsWithSlash s then s else s +:+ "/".

(** [s.replace(/^\//, '')] *)
Definition dropLeadingSlash (s : string) : string :=
  match s with
  | String c s' => if Ascii.eqb c slash then s' else s
  | EmptyString => EmptyString
  end.

(** Truthiness of a [string | undefined] value. *)
Definition truthy (v : option string) : option string :=
  match v with
  | Some EmptyString => None
  | Some s => Some s
  | None => None
  end.

End Js.

(** ** core/path.js *)

Module Path.

(** Modelled from the spec: [core/path.js] is not among the sources.  The
    spec normalises a pathname "by stripping a trailing slash": one final
    ['/'] is removed when the string ends in one. *)
Fixpoint removeTrailingForwardSlash (path : string) : string :=
  match path with
  | EmptyString => EmptyString
  | String c EmptyString => if Ascii.eqb c Js.slash then EmptyString else path
  | String c rest => String c (removeTrailingForwardSlash rest)
  end.

(** Modelled from the spec: [core/path.js] is not among the sources; the
    mirror image of [removeTrailingForwardSlash] at the front. *)
Definition removeLeadingForwardSlash (path : string) : string :=
  Js.dropLeadingSlash path.

End Path.

(** ** Data model *)

Inductive RouteType := page | endpoint.
Inductive OutputMode := output_static | output_server | output_hybrid.
Inductive TrailingSlash := always | never | ignore.
Inductive BuildFormat := directory | file.
Inductive ScriptStage := head_inline | before_hydration | stage_page | page_ssr.

(** [getStaticPaths] parameter bindings: a mapping from names to values. *)
Definition Params := list (string * string).

(** [RouteData].  [rid] stands for the identity of the JavaScript object
    ([===] on routes compares identities); [pattern] is [route.pattern.test];
    [pathname] is [string | undefined]. *)
Record RouteData := {
  rid : nat;
  component : string;
  rtype : RouteType;
  pathname : option string;
  prerender : bool;
  pattern : string → bool;
  generate : Params → string;
}.

(** One entry of a [getStaticPaths] result; [params] may be missing in
    untyped user code. *)
Record StaticPath := {
  sp_params : option Params;
}.

Record RouteCacheEntry := {
  staticPaths : list StaticPath;
}.

Inductive ErrorName :=
| PlainError
| TypeError
| RedirectNotAllowedError
| StaticPathsError
| RenderError.

(** A thrown value: [AstroError.is(err)], [typeof err === 'object'] and
    [err.id] are what [generatePath] inspects. *)
Record SSRError := {
  err_name : ErrorName;
  err_message : string;
  err_isAstro : bool;
  err_isObject : bool;
  err_id : option string;
}.

Inductive Outcome (A : Type) :=
| Ok (a : A)
| Throw (e : SSRError).
Arguments Ok {A} a.
Arguments Throw {A} e.

Record Response := {
  status : nat;
  location : option string;
  resp_body : option string;
}.

(** What [createRenderContext] resolves for one pathname of a route. *)
Record RenderContext := {
  rc_route : RouteData;
  rc_pathname : string;
  rc_url : string * string;
  rc_params : Params;
}.

Inductive EndpointCallResult :=
| EndpointSimple (body : string) (encoding : option string)
| EndpointResponse (response : Response).

(** What is handed to [fs.promises.writeFile]. *)
Inductive Body :=
| Text (s : string)
| Uint8Array (bytes : string).

(** [frontmatter?.draft]: only the boolean [true] passes [=== true]. *)
Inductive DraftFlag := draft_undefined | draft_bool (b : bool) | draft_other.

(** A page module.  [frontmatter = None]: no such key; [Some None]: the key
    is there with a nullish value; [Some (Some d)]: an object whose [draft]
    is [d]. *)
Record ComponentInstance := {
  mod_id : nat;
  frontmatter : option (option DraftFlag);
}.

(** What a middleware's [onRequest] does with the continuation that
    renders the page: answer without it, or call it and post-process its
    outcome. *)
Inductive MiddlewareAction :=
| ShortCircuit (r : Outcome Response)
| CallNext (k : Outcome Response → Outcome Response).

Record AstroMiddlewareInstance := {
  onRequest : option (string → MiddlewareAction);
}.

Record SinglePageBuiltModule := {
  sp_page : option (Outcome ComponentInstance);
  sp_middleware : option AstroMiddlewareInstance;
}.

Record HoistedScript := {
  hs_external : bool;
  hs_value : string;
}.

Record PageBuildData := {
  pd_component : string;
  pd_route : RouteData;
  hoistedScript : option HoistedScript;
}.

Record BuildInternals := {
  (* a [Map], iterated in insertion order *)
  entrySpecifierToBundleMap : list (string * string);
  pagesByComponent : gmap string PageBuildData;
}.

Record AstroIntegration := {
  int_name : string;
  hook_build_generated : bool;
}.

Record InjectedScript := {
  stage : ScriptStage;
  content : string;
}.

Record AstroConfig := {
  output : OutputMode;
  trailingSlash : TrailingSlash;
  build_format : BuildFormat;
  base : string;
  outDir : string;
  markdown_drafts : bool;
  experimental_assets : bool;
  integrations : list AstroIntegration;
}.

Record AstroSettings := {
  config : AstroConfig;
  scripts : list InjectedScript;
}.

Record BuildConfig := {
  bc_client : string;
  bc_server : string;
}.

(** The immutable part of [StaticBuildOptions]; [manifest] is
    [opts.manifest.routes], in priority order. *)
Record StaticBuildOptions := {
  settings : AstroSettings;
  buildConfig : BuildConfig;
  manifest : list RouteData;
  origin : string;
}.

Record GeneratePathOptions := {
  go_pageData : PageBuildData;
  go_internals : BuildInternals;
  go_scripts : option HoistedScript;
  go_mod : ComponentInstance;
}.

(** ** Observable effects *)

Inductive LogMessage :=
| LogHeading (verb : string)
| LogSkippingDraft (component : string)
| LogRoute (ty : RouteType) (component : string)
| LogPathLine (last : bool) (filePath : string)
| LogImagesHeading
| LogImage (path : string) (cached : bool)
| LogCompleted
| DebugStaticPaths (component : string) (n : nat)
| DebugStaticPathsFailed (component : string)
| DebugGenerating (pathname : string).

Inductive Event :=
| Logged (m : LogMessage)
| Imported (filePath : string)
| CalledGetStaticPaths (route : nat) (ssr : bool)
| RenderedPage (route : nat) (pathname : string)
| CalledEndpoint (route : nat) (pathname : string)
| Mkdir (folder : string)
| WriteFile (file : string) (body : Body) (encoding : string)
| GeneratedImage (path : string)
| DeletedAddStaticImage
| HookBuildGenerated (integration : string) (dir : string).

(** The objects the generator mutates.  [builtPaths] is the [Set]
    allocated by [generatePages] and handed by reference to every
    [generatePage]; [routeCache] and [distURL] are keyed by route
    identity. *)
Record BuildState := {
  builtPaths : gset string;
  routeCache : gmap nat RouteCacheEntry;
  pageNames : list string;
  distURL : gmap nat string;
  trace : list Event;
}.

Definition Build (A : Type) : Type := BuildState → Outcome A * BuildState.

#[global] Instance Build_ret : MRet Build := λ A a s, (Ok a, s).

#[global] Instance Build_bind : MBind Build := λ A B f m s,
  match m s with
  | (Ok a, s') => f a s'
  | (Throw e, s') => (Throw e, s')
  end.

Definition throw {A} (e : SSRError) : Build A := λ s, (Throw e, s).

Definition await {A} (o : Outcome A) : Build A := λ s, (o, s).

(** [try { m } catch (err) { h err }] *)
Definition try_catch {A} (m : Build A) (h : SSRError → Build A) : Build A := λ s,
  match m s with
  | (Ok a, s') => (Ok a, s')
  | (Throw e, s') => h e s'
  end.

Definition emit (e : Event) : Build unit := λ s,
  (Ok tt, {| builtPaths := builtPaths s; routeCache := routeCache s;
             pageNames := pageNames s; distURL := distURL s;
             trace := trace s ++ [e] |}).

Definition getBuiltPaths : Build (gset string) := λ s, (Ok (builtPaths s), s).

Definition getRouteCache : Build (gmap nat RouteCacheEntry) := λ s, (Ok (routeCache s), s).

Definition setBuiltPaths (bp : gset string) : Build unit := λ s,
  (Ok tt, {| builtPaths := bp; routeCache := routeCache s;
             pageNames := pageNames s; distURL := distURL s;
             trace := trace s |}).

(** [builtPaths.add(p)] *)
Definition builtPaths_add (p : string) : Build unit := λ s,
  (Ok tt, {| builtPaths := {[ p ]} ∪ builtPaths s; routeCache := routeCache s;
             pageNames := pageNames s; distURL := distURL s;
             trace := trace s |}).

(** [opts.routeCache.set(route, result)] *)
Definition routeCache_set (route : RouteData) (result : RouteCacheEntry) : Build unit := λ s,
  (Ok tt, {| builtPaths := builtPaths s;
             routeCache := <[ rid route := result ]> (routeCache s);
             pageNames := pageNames s; distURL := distURL s;
             trace := trace s |}).

(** [opts.pageNames.push(name)] *)
Definition pageNames_push (name : string) : Build unit := λ s,
  (Ok tt, {| builtPaths := builtPaths s; routeCache := routeCache s;
             pageNames := pageNames s ++ [name]; distURL := distURL s;
             trace := trace s |}).

(** [route.distURL = outFile] *)
Definition distURL_set (route : RouteData) (outFile : string) : Build unit := λ s,
  (Ok tt, {| builtPaths := builtPaths s; routeCache := routeCache s;
             pageNames := pageNames s;
             distURL := <[ rid route := outFile ]> (distURL s);
             trace := trace s |}).

(** [for (const x of l) { await f(x) }] *)
Fixpoint forEach {A} (f : A → Build unit) (l : list A) : Build unit :=
  match l with
  | [] => mret tt
  | x :: l' => f x ;; forEach f l'
  end.

Definition plainError (message : string) : SSRError :=
  {| err_name := PlainError; err_message := message; err_isAstro := false;
     err_isObject := true; err_id := None |}.

(** The [TypeError] of a property read on [undefined]. *)
Definition typeError (message : string) : SSRError :=
  {| err_name := TypeError; err_message := message; err_isAstro := false;
     err_isObject := true; err_id := None |}.

(** ** Collaborators

    Functions and constants of other modules of the repository (and of
    user code) that [generate.ts] calls.  They are parameters of the
    embedding: [isHybridOutput] ([prerender/utils.js]), the three string
    constants of the bundler plugins, the dynamic [import()] of a built
    page, the body of [callGetStaticPaths] ([render/route-cache.js]),
    [createRenderContext] (which is handed the Route Cache), [renderPage]
    and [callEndpoint], the redirect policy, the output layout functions
    of [build/common.js] and [core/util.js], and the image service. *)
Record Externals := {
  isHybridOutput : AstroConfig → bool;
  ASTRO_PAGE_MODULE_ID : string;
  ASTRO_PAGE_EXTENSION_POST_PATTERN : string;
  PAGE_SCRIPT_ID : string;
  getOutDirWithinCwd : string → string;
  importEntry : string → string → Outcome SinglePageBuiltModule;
  enumerateStaticPaths : ComponentInstance → RouteData → bool → Outcome RouteCacheEntry;
  createRenderContext : gmap nat RouteCacheEntry → ComponentInstance → RouteData →
                        string → string * string → Outcome RenderContext;
  renderPage : ComponentInstance → RenderContext → Outcome Response;
  callEndpoint : ComponentInstance → RenderContext → option AstroMiddlewareInstance →
                 Outcome EndpointCallResult;
  isRedirectAllowed : Response → AstroConfig → bool;
  getOutFolder : AstroConfig → string → RouteType → string;
  getOutFile : AstroConfig → string → string → RouteType → string;
  getOutputFilename : AstroConfig → string → RouteType → string;
  getStaticImageList : list string;
  generateImageInternal : string → Outcome (option bool);
}.

(** ** core/build/internal.ts *)

(** [eachPageData]: the values of [pagesByComponent]. *)
Definition eachPageData (internals : BuildInternals) : list PageBuildData :=
  (map_to_list (pagesByComponent internals)).*2.

Fixpoint hasPrerenderedPages_loop (pages : list PageBuildData) : bool :=
  match pages with
  | [] => false
  | pageData :: rest =>
      if prerender (pd_route pageData) then true else hasPrerenderedPages_loop rest
  end.

Definition hasPrerenderedPages (internals : BuildInternals) : bool :=
  hasPrerenderedPages_loop (eachPageData internals).

Definition getPageDataByComponent (internals : BuildInternals) (component : string)
  : option PageBuildData :=
  pagesByComponent internals !! component.

(** ** core/routing/match.js *)

(** Modelled from the spec: [core/routing/match.js] is not among the
    sources.  Matching a pathname against the manifest finds the "first
    Manifest entry, in priority order, whose segment pattern matches". *)
Definition matchRoute (pathname : string) (manifest : list RouteData) : option RouteData :=
  find (λ route, pattern route pathname) manifest.

(** [matchedRoute === route] *)
Definition sameRoute (matchedRoute : option RouteData) (route : RouteData) : bool :=
  match matchedRoute with
  | Some r => Nat.eqb (rid r) (rid route)
  | None => false
  end.

(** ** core/build/generate.ts *)

Definition shouldSkipDraft (pageModule : ComponentInstance) (settings : AstroSettings) : bool :=
  negb (markdown_drafts (config settings)) &&
  match frontmatter pageModule with
  | None => false
  | Some fm =>
      match fm with
      | Some (draft_bool true) => true
      | _ => false
      end
  end.

Definition shouldAppendForwardSlash (trailingSlash : TrailingSlash) (buildFormat : BuildFormat)
  : bool :=
  match trailingSlash with
  | always => true
  | never => false
  | ignore =>
      match buildFormat with
      | directory => true
      | file => false
      end
  end.

Definition addPageName (pathname : string) (opts : StaticBuildOptions) : Build unit :=
  let trailingSlash := trailingSlash (config (settings opts)) in
  let buildFormat := build_format (config (settings opts)) in
  let pageName :=
    if shouldAppendForwardSlash trailingSlash buildFormat
    then Js.dropLeadingSlash (Js.ensureTrailingSlash pathname)
    else Js.dropLeadingSlash pathname in
  pageNames_push pageName.

(** The URL is returned as the pair of the build pathname and the origin
    it is resolved against. *)
Definition getUrlForPath (pathname base origin : string) (format : BuildFormat)
    (routeType : RouteType) : string * string :=
  let ending := match format with directory => "/" | file => ".html" end in
  let buildPathname :=
    if String.eqb pathname "/" || String.eqb pathname "" then base
    else match routeType with
         | endpoint => base +:+ Path.removeLeadingForwardSlash pathname
         | page =>
             base +:+ (Path.removeTrailingForwardSlash
                         (Path.removeLeadingForwardSlash pathname) +:+ ending)
         end in
  (buildPathname, origin).

(** [staticPath.params && route.generate(staticPath.params)]: the pathname,
    or the missing [params] itself. *)
Definition candidate (route : RouteData) (staticPath : StaticPath) : option string :=
  match sp_params staticPath with
  | Some params => Some (generate route params)
  | None => None
  end.

(** The callback handed to [.filter] in [getPathsForRoute]. *)
Definition keepStaticPath (builtPaths : gset string) (route : RouteData)
    (manifest : list RouteData) (staticPath : string) : bool :=
  if decide (Path.removeTrailingForwardSlash staticPath ∈ builtPaths)
  then sameRoute (matchRoute staticPath manifest) route
  else true.

(** [.filter(...)] over the mapped array.  A candidate that is not a
    string makes [removeTrailingForwardSlash] read a property of
    [undefined], which throws. *)
Fixpoint filterStaticPaths (builtPaths : gset string) (route : RouteData)
    (manifest : list RouteData) (candidates : list (option string))
  : Outcome (list string) :=
  match candidates with
  | [] => Ok []
  | None :: _ => Throw (typeError "Cannot read properties of undefined")
  | Some staticPath :: rest =>
      match filterStaticPaths builtPaths route manifest rest with
      | Ok paths =>
          Ok (if keepStaticPath builtPaths route manifest staticPath
              then staticPath :: paths else paths)
      | Throw e => Throw e
      end
  end.

Definition redirectNotAllowedError : SSRError :=
  {| err_name := RedirectNotAllowedError;
     err_message := "Redirects are not available in this output mode";
     err_isAstro := true; err_isObject := true; err_id := None |}.

(** The [catch] block of the page branch of [generatePath]. *)
Definition tagError (err : SSRError) (component : string) : SSRError :=
  if negb (err_isAstro err) && negb (bool_decide (is_Some (Js.truthy (err_id err))))
     && err_isObject err
  then {| err_name := err_name err; err_message := err_message err;
          err_isAstro := err_isAstro err; err_isObject := err_isObject err;
          err_id := Some component |}
  else err.

Definition isPageStage (script : InjectedScript) : bool :=
  match stage script with
  | stage_page => true
  | _ => false
  end.

(** [Map.prototype.get] on the insertion-ordered entry map. *)
Definition entryMap_get (key : string) (m : list (string * string)) : option string :=
  snd <$> find (λ kv, String.eqb (fst kv) key) m.

Section Pipeline.

Context (E : Externals).

Definition isSSR (config : AstroConfig) : bool :=
  match output config with
  | output_server => true
  | _ => isHybridOutput E config
  end.

(** Modelled from the spec: [core/render/route-cache.js] is not among the
    sources.  "Invoke the route's path-enumeration callback ... given the
    rendering mode"; the call receives no handle on [opts.routeCache].
    Each call is recorded as one invocation of the callback. *)
Definition callGetStaticPaths (mod_ : ComponentInstance) (route : RouteData) (ssr : bool)
  : Build RouteCacheEntry :=
  emit (CalledGetStaticPaths (rid route) ssr) ;;
  await (enumerateStaticPaths E mod_ route ssr).

(** Modelled from the spec: [core/endpoint/index.js] is not among the
    sources.  "A redirect response [that] violates configured redirect
    policy" fails with [RedirectNotAllowedError]. *)
Definition throwIfRedirectNotAllowed (response : Response) (config : AstroConfig)
  : Build unit :=
  if isRedirectAllowed E response config then mret tt
  else throw redirectNotAllowedError.

(** Modelled from the spec: [core/middleware/callMiddleware.js] is not
    among the sources.  "The middleware may short-circuit, transform, or
    pass through" the continuation [next]. *)
Definition callMiddleware (action : MiddlewareAction) (next : Build Response)
  : Build Response := λ s,
  match action with
  | ShortCircuit r => (r, s)
  | CallNext k => let '(o, s') := next s in (k o, s')
  end.

Definition getPathsForRoute (pageData : PageBuildData) (mod_ : ComponentInstance)
    (opts : StaticBuildOptions) : Build (list string) :=
  match Js.truthy (pathname (pd_route pageData)) with
  | Some p =>
      builtPaths_add p ;;
      mret [p]
  | None =>
      let route := pd_route pageData in
      result ← try_catch
        (_result ← callGetStaticPaths mod_ route (isSSR (config (settings opts)));
         emit (Logged (DebugStaticPaths (component route) (length (staticPaths _result)))) ;;
         mret _result)
        (λ err,
           emit (Logged (DebugStaticPathsFailed (component route))) ;;
           throw err);
      routeCache_set route result ;;
      builtPaths ← getBuiltPaths;
      paths ← await (filterStaticPaths builtPaths route (manifest opts)
                       (candidate route <$> staticPaths result));
      forEach (λ staticPath, builtPaths_add (Path.removeTrailingForwardSlash staticPath)) paths ;;
      mret paths
  end.

Definition generatePath (pathname : string) (opts : StaticBuildOptions)
    (gopts : GeneratePathOptions) (middleware : option AstroMiddlewareInstance)
  : Build unit :=
  let settings := settings opts in
  let pageData := go_pageData gopts in
  let mod_ := go_mod gopts in
  let route := pd_route pageData in
  let write (body : Body) (encoding : option string) : Build unit :=
    let outFolder := getOutFolder E (config settings) pathname (rtype route) in
    let outFile := getOutFile E (config settings) outFolder pathname (rtype route) in
    distURL_set route outFile ;;
    emit (Mkdir outFolder) ;;
    emit (WriteFile outFile body (default "utf-8" encoding)) in
  match rtype route with
  | page => addPageName pathname opts
  | endpoint => mret tt
  end ;;
  emit (Logged (DebugGenerating pathname)) ;;
  (if existsb isPageStage (scripts settings)
   then match entryMap_get (PAGE_SCRIPT_ID E) (entrySpecifierToBundleMap (go_internals gopts)) with
        | Some _ => mret tt
        | None => throw (plainError ("Cannot find the built path for " +:+ PAGE_SCRIPT_ID E))
        end
   else mret tt) ;;
  let url := getUrlForPath pathname (base (config settings)) (origin opts)
               (build_format (config settings)) (rtype route) in
  routeCache ← getRouteCache;
  renderContext ← await (createRenderContext E routeCache mod_ route pathname url);
  match rtype route with
  | endpoint =>
      emit (CalledEndpoint (rid route) pathname) ;;
      result ← await (callEndpoint E mod_ renderContext middleware);
      match result with
      | EndpointResponse response =>
          throwIfRedirectNotAllowed response (config settings) ;;
          match resp_body response with
          | None => mret tt
          | Some ab => write (Uint8Array ab) None
          end
      | EndpointSimple body encoding => write (Text body) encoding
      end
  | page =>
      response ← try_catch
        (let render : Build Response :=
           emit (RenderedPage (rid route) pathname) ;;
           await (renderPage E mod_ renderContext) in
         match middleware ≫= onRequest with
         | Some onRequest => callMiddleware (onRequest pathname) render
         | None => render
         end)
        (λ err, throw (tagError err (pd_component pageData)));
      throwIfRedirectNotAllowed response (config settings) ;;
      match resp_body response with
      | None => mret tt
      | Some text => write (Text text) None
      end
  end.

(** The [for] loop of [generatePage], from index [i] on. *)
Fixpoint generatePage_loop (opts : StaticBuildOptions) (gopts : GeneratePathOptions)
    (middleware : option AstroMiddlewareInstance) (paths : list string) : Build unit :=
  match paths with
  | [] => mret tt
  | path :: rest =>
      generatePath path opts gopts middleware ;;
      let filePath := getOutputFilename E (config (settings opts)) path
                        (rtype (pd_route (go_pageData gopts))) in
      emit (Logged (LogPathLine (bool_decide (rest = [])) filePath)) ;;
      generatePage_loop opts gopts middleware rest
  end.

(** The stylesheets, link ids and renderers that [generatePage] gathers
    are only handed on to the renderer and are not part of the embedding;
    the hoisted script is. *)
Definition generatePage (opts : StaticBuildOptions) (internals : BuildInternals)
    (pageData : PageBuildData) (ssrEntry : SinglePageBuiltModule) : Build unit :=
  let pageInfo := getPageDataByComponent internals (component (pd_route pageData)) in
  let scripts := pageInfo ≫= hoistedScript in
  let middleware := sp_middleware ssrEntry in
  match sp_page ssrEntry with
  | None =>
      throw (plainError ("Unable to find the module for " +:+ pd_component pageData
               +:+ ". This is unexpected and likely a bug in Astro, please report."))
  | Some pageModulePromise =>
      pageModule ← await pageModulePromise;
      if shouldSkipDraft pageModule (settings opts)
      then emit (Logged (LogSkippingDraft (component (pd_route pageData))))
      else
        let generationOptions :=
          {| go_pageData := pageData; go_internals := internals;
             go_scripts := scripts; go_mod := pageModule |} in
        emit (Logged (LogRoute (rtype (pd_route pageData)) (component (pd_route pageData)))) ;;
        paths ← getPathsForRoute pageData pageModule opts;
        generatePage_loop opts generationOptions middleware paths
  end.

(** [eachPageDataFromEntryPoint], fused with the body of the [for ... of]
    loop that consumes it: the generator is lazy, so a missing page is only
    reported once the loop reaches it. *)
Fixpoint eachPageDataFromEntryPoint (internals : BuildInternals)
    (entries : list (string * string)) (body : PageBuildData → string → Build unit)
  : Build unit :=
  match entries with
  | [] => mret tt
  | (entryPoint, filePath) :: rest =>
      (if Js.includes (ASTRO_PAGE_MODULE_ID E) entryPoint
       then match Js.splitColon entryPoint with
            | _ :: pageName :: _ =>
                match pagesByComponent internals
                        !! Js.replaceFirst (ASTRO_PAGE_EXTENSION_POST_PATTERN E) "." pageName with
                | Some pageData => body pageData filePath
                | None =>
                    throw (plainError ("Build failed. Astro couldn't find the emitted page from "
                                         +:+ pageName +:+ " pattern"))
                end
            | _ => throw (typeError "Cannot read properties of undefined")
            end
       else mret tt) ;;
      eachPageDataFromEntryPoint internals rest body
  end.

Definition generateImage (path : string) : Build unit :=
  emit (GeneratedImage path) ;;
  generationData ← await (generateImageInternal E path);
  match generationData with
  | None => mret tt
  | Some cached => emit (Logged (LogImage path cached))
  end.

(** [integrations/index.ts] *)
Definition runHookBuildGenerated (config : AstroConfig) (buildConfig : BuildConfig)
  : Build unit :=
  let dir := match output config with
             | output_server => bc_client buildConfig
             | _ => outDir config
             end in
  forEach (λ integration,
             if hook_build_generated integration
             then emit (HookBuildGenerated (int_name integration) dir)
             else mret tt)
          (integrations config).

Definition generatePages (opts : StaticBuildOptions) (internals : BuildInternals)
  : Build unit :=
  let config := config (settings opts) in
  let ssr := isSSR config in
  let outFolder := if ssr then bc_server (buildConfig opts)
                   else getOutDirWithinCwd E (outDir config) in
  if ssr && negb (hasPrerenderedPages internals) then mret tt
  else
    let verb := if ssr then "prerendering" else "generating" in
    emit (Logged (LogHeading verb)) ;;
    setBuiltPaths ∅ ;;
    (if ssr
     then eachPageDataFromEntryPoint internals (entrySpecifierToBundleMap internals)
            (λ pageData filePath,
               if prerender (pd_route pageData)
               then emit (Imported filePath) ;;
                    ssrEntryPage ← await (importEntry E outFolder filePath);
                    generatePage opts internals pageData ssrEntryPage
               else mret tt)
     else eachPageDataFromEntryPoint internals (entrySpecifierToBundleMap internals)
            (λ pageData filePath,
               emit (Imported filePath) ;;
               ssrEntryPage ← await (importEntry E outFolder filePath);
               generatePage opts internals pageData ssrEntryPage)) ;;
    (if experimental_assets config
     then emit (Logged LogImagesHeading) ;;
          forEach generateImage (getStaticImageList E) ;;
          emit DeletedAddStaticImage
     else mret tt) ;;
    runHookBuildGenerated config (buildConfig opts) ;;
    emit (Logged LogCompleted).

End Pipeline.

(** ** Reading a trace *)

Definition isFsEvent (e : Event) : bool :=
  match e with
  | Mkdir _ | WriteFile _ _ _ => true
  | _ => false
  end.

Definition isRenderEvent (e : Event) : bool :=
  match e with
  | RenderedPage _ _ | CalledEndpoint _ _ => true
  | _ => false
  end.

Definition isEnumerationOf (route : RouteData) (e : Event) : bool :=
  match e with
  | CalledGetStaticPaths r _ => Nat.eqb r (rid route)
  | _ => false
  end.

(** File-system operations performed so far. *)
Definition fsEvents (s : BuildState) : list Event := filter isFsEvent (trace s).

(** Invocations of the enumeration callback for [route] so far. *)
Definition enumerations (route : RouteData) (s : BuildState) : nat :=
  length (filter (isEnumerationOf route) (trace s)).

(** The response a page render hands back to [generatePath]: the renderer's
    own, or what the middleware made of it. *)
Definition pageOutcome (E : Externals) (middleware : option AstroMiddlewareInstance)
    (mod_ : ComponentInstance) (renderContext : RenderContext) (pathname : string)
  : Outcome Response :=
  match middleware ≫= onRequest with
  | Some onRequest =>
      match onRequest pathname with
      | ShortCircuit r => r
      | CallNext k => k (renderPage E mod_ renderContext)
      end
  | None => renderPage E mod_ renderContext
  end.

(** The response, if any, that rendering [pathname] produces, for a page
    and for an endpoint. *)
Definition renderedResponse (E : Externals) (pathname : string) (opts : StaticBuildOptions)
    (gopts : GeneratePathOptions) (middleware : option AstroMiddlewareInstance)
    (s : BuildState) : option Response :=
  let route := pd_route (go_pageData gopts) in
  let config := config (settings opts) in
  let url := getUrlForPath pathname (base config) (origin opts) (build_format config)
               (rtype route) in
  match createRenderContext E (routeCache s) (go_mod gopts) route pathname url with
  | Throw _ => None
  | Ok renderContext =>
      match rtype route with
      | endpoint =>
          match callEndpoint E (go_mod gopts) renderContext middleware with
          | Ok (EndpointResponse response) => Some response
          | _ => None
          end
      | page =>
          match pageOutcome E middleware (go_mod gopts) renderContext pathname with
          | Ok response => Some response
          | Throw _ => None
          end
      end
  end.

(** The page-stage script, when one is injected, is in the bundle map. *)
Definition pageScriptResolved (E : Externals) (opts : StaticBuildOptions)
    (gopts : GeneratePathOptions) : bool :=
  if existsb isPageStage (scripts (settings opts))
  then bool_decide (is_Some (entryMap_get (PAGE_SCRIPT_ID E)
                               (entrySpecifierToBundleMap (go_internals gopts))))
  else true.

(** What was written to [file], oldest first. *)
Definition writesTo (file : string) (s : BuildState) : list Body :=
  omap (λ e, match e with
             | WriteFile f body _ => if String.eqb f file then Some body else None
             | _ => None
             end) (trace s).

(** The Built-Paths Set of [s'] extends that of [s]. *)
Definition grows (s s' : BuildState) : Prop := builtPaths s ⊆ builtPaths s'.

(** A computation that never removes a built path, whatever its outcome. *)
Definition monotone {A} (m : Build A) : Prop := ∀ s, grows s (snd (m s)).

(** How often [p] occurs in [l]. *)
Definition occurrences (p : string) (l : list string) : nat :=
  length (filter (λ q, q = p) l).

(** An enumeration entry that carries its parameter bindings. *)
Definition binding (params : Params) : StaticPath := {| sp_params := Some params |}.

(** ** A small site

    Two dynamic routes that both enumerate [/x] ([slugRoute] before
    [restRoute] in the manifest), a route that enumerates the same binding
    twice, a route whose generator yields the empty pathname, the index
    page, an on-demand page and an endpoint that redirects. *)

Module Demo.

Definition firstValue (params : Params) : string :=
  match params with
  | (_, v) :: _ => v
  | [] => ""
  end.

(** [/:slug], and an optional rest parameter that vanishes when empty. *)
Definition generateSlug (params : Params) : string := "/" +:+ firstValue params.

Definition generateOptional (params : Params) : string :=
  match firstValue params with
  | EmptyString => ""
  | v => "/" +:+ v
  end.

Definition generateTwice (params : Params) : string := "/twice/" +:+ firstValue params.

Definition slugRoute : RouteData :=
  {| rid := 1; component := "src/pages/[slug].astro"; rtype := page; pathname := None;
     prerender := true; pattern := λ p, String.eqb p "/x"; generate := generateSlug |}.

Definition restRoute : RouteData :=
  {| rid := 2; component := "src/pages/[...rest].astro"; rtype := page; pathname := None;
     prerender := true; pattern := λ _, true; generate := generateSlug |}.

Definition twiceRoute : RouteData :=
  {| rid := 3; component := "src/pages/twice/[slug].astro"; rtype := page; pathname := None;
     prerender := true; pattern := λ p, Js.startsWith "/twice/" p;
     generate := generateTwice |}.

Definition indexRoute : RouteData :=
  {| rid := 4; component := "src/pages/index.astro"; rtype := page; pathname := Some "/";
     prerender := true; pattern := λ p, String.eqb p "/"; generate := λ _, "/" |}.

Definition blogRoute : RouteData :=
  {| rid := 5; component := "src/pages/blog.astro"; rtype := page; pathname := Some "/blog";
     prerender := false; pattern := λ p, String.eqb p "/blog"; generate := λ _, "/blog" |}.

Definition moveRoute : RouteData :=
  {| rid := 6; component := "src/pages/move.ts"; rtype := endpoint; pathname := Some "/move";
     prerender := true; pattern := λ p, String.eqb p "/move"; generate := λ _, "/move" |}.

Definition optionalRoute : RouteData :=
  {| rid := 7; component := "src/pages/[...all].astro"; rtype := page; pathname := None;
     prerender := true; pattern := λ _, true; generate := generateOptional |}.

Definition slug (v : string) : StaticPath := binding [("slug", v)].

Definition enumerate (mod_ : ComponentInstance) (route : RouteData) (ssr : bool)
  : Outcome RouteCacheEntry :=
  match rid route with
  | 3 => Ok {| staticPaths := [slug "x"; slug "x"] |}
  | 2 => Ok {| staticPaths := [slug "x"; slug ""] |}
  | 7 => Ok {| staticPaths := [slug ""; slug "guide"] |}
  | _ => Ok {| staticPaths := [slug "x"] |}
  end.

Definition plainModule : ComponentInstance := {| mod_id := 0; frontmatter := None |}.

Definition draftModule : ComponentInstance :=
  {| mod_id := 1; frontmatter := Some (Some (draft_bool true)) |}.

Definition builtModule : SinglePageBuiltModule :=
  {| sp_page := Some (Ok plainModule); sp_middleware := None |}.

Definition builtDraft : SinglePageBuiltModule :=
  {| sp_page := Some (Ok draftModule); sp_middleware := None |}.

Definition found (route : RouteData) : Response :=
  {| status := 200; location := None; resp_body := Some (component route) |}.

Definition moved : Response :=
  {| status := 302; location := Some "https://elsewhere.example/"; resp_body := None |}.

Definition externals : Externals :=
  {| isHybridOutput := λ _, false;
     ASTRO_PAGE_MODULE_ID := "@astro-page:";
     ASTRO_PAGE_EXTENSION_POST_PATTERN := "@_@";
     PAGE_SCRIPT_ID := "astro:scripts/page.js";
     getOutDirWithinCwd := λ outDir, outDir;
     importEntry := λ _ _, Ok builtModule;
     enumerateStaticPaths := enumerate;
     createRenderContext := λ _ _ route pathname url,
       Ok {| rc_route := route; rc_pathname := pathname; rc_url := url; rc_params := [] |};
     renderPage := λ _ renderContext, Ok (found (rc_route renderContext));
     callEndpoint := λ _ _ _, Ok (EndpointResponse moved);
     isRedirectAllowed := λ response _, bool_decide (status response < 300);
     getOutFolder := λ _ pathname _, "dist" +:+ Path.removeTrailingForwardSlash pathname;
     getOutFile := λ _ outFolder _ _, outFolder +:+ "/index.html";
     getOutputFilename := λ _ pathname _,
       Path.removeTrailingForwardSlash pathname +:+ "/index.html";
     getStaticImageList := [];
     generateImageInternal := λ _, Ok None |}.

Definition siteConfig (mode : OutputMode) : AstroConfig :=
  {| output := mode; trailingSlash := ignore; build_format := directory; base := "/";
     outDir := "dist/"; markdown_drafts := false; experimental_assets := false;
     integrations := [ {| int_name := "sitemap"; hook_build_generated := true |} ] |}.

Definition options (mode : OutputMode) : StaticBuildOptions :=
  {| settings := {| config := siteConfig mode; scripts := [] |};
     buildConfig := {| bc_client := "dist/client/"; bc_server := "dist/server/" |};
     manifest := [indexRoute; blogRoute; moveRoute; twiceRoute; slugRoute; optionalRoute;
                  restRoute];
     origin := "http://localhost" |}.

Definition pageOf (route : RouteData) : PageBuildData :=
  {| pd_component := component route; pd_route := route; hoistedScript := None |}.

Definition internalsOf (entries : list (string * string)) (routes : list RouteData)
  : BuildInternals :=
  {| entrySpecifierToBundleMap := entries;
     pagesByComponent := list_to_map ((λ r, (component r, pageOf r)) <$> routes) |}.

(** The bundler emitted the rest route's page before the slug route's. *)
Definition restFirst : BuildInternals :=
  internalsOf [ ("@astro-page:src/pages/[...rest]@_@astro", "pages/rest.mjs");
                ("@astro-page:src/pages/[slug]@_@astro", "pages/slug.mjs") ]
              [slugRoute; restRoute].

(** The index page, then the rest route. *)
Definition indexFirst : BuildInternals :=
  internalsOf [ ("@astro-page:src/pages/index@_@astro", "pages/index.mjs");
                ("@astro-page:src/pages/[...rest]@_@astro", "pages/rest.mjs") ]
              [indexRoute; restRoute].

Definition onDemandOnly : BuildInternals :=
  internalsOf [ ("@astro-page:src/pages/blog@_@astro", "pages/blog.mjs") ] [blogRoute].

Definition gopts (route : RouteData) : GeneratePathOptions :=
  {| go_pageData := pageOf route; go_internals := internalsOf [] [route];
     go_scripts := None; go_mod := plainModule |}.

Definition start : BuildState :=
  {| builtPaths := ∅; routeCache := ∅; pageNames := []; distURL := ∅; trace := [] |}.

(** The state a computation ends in, and its outcome. *)
Definition after {A} (m : Build A) (s : BuildState) : BuildState := snd (m s).
Definition outcome {A} (m : Build A) (s : BuildState) : Outcome A := fst (m s).

End Demo.

(** ** core/build/internal.ts: stylesheets *)

(** [OrderInfo]: the position of a stylesheet in the module graph.  Both
    fields are integer counters, [-1] meaning "not ordered". *)
Record OrderInfo := {
  depth : Z;
  order : Z;
}.

(** The comparator handed to [Array.prototype.sort]. *)
Definition cssOrder (a b : OrderInfo) : Z :=
  let depthA := depth a in
  let depthB := depth b in
  let orderA := order a in
  let orderB := order b in
  if (orderA =? -1)%Z && (orderB >=? 0)%Z then 1%Z
  else if (orderB =? -1)%Z && (orderA >=? 0)%Z then (-1)%Z
  else if (orderA >? orderB)%Z then 1%Z
  else if (orderA <? orderB)%Z then (-1)%Z
  else if (depthA =? -1)%Z then (-1)%Z
  else if (depthB =? -1)%Z then 1%Z
  else if (depthA >? depthB)%Z then (-1)%Z else 1%Z.

(** When [a] sorts before [b]: not an unordered sheet against an ordered
    one, and then an ordered sheet against an unordered one, or the
    smaller [order], or on equal [order] the sheet without depth, or the
    deeper one. *)
Definition sortsBefore (a b : OrderInfo) : Prop :=
  (¬ (order a = -1 ∧ 0 ≤ order b) ∧
   ((order b = -1 ∧ 0 ≤ order a) ∨ order a < order b ∨
    (order a = order b ∧ (depth a = -1 ∨ (depth b ≠ -1 ∧ depth b < depth a)))))%Z.

(** [StylesheetAsset]: [{ type: 'inline', content }] or
    [{ type: 'external', src }]. *)
Inductive StylesheetAsset :=
| InlineSheet (content : string)
| ExternalSheet (src : string).

(** The reducer of [generatePage]'s stylesheet list: [acc.at(acc.length - 1)]
    is the last element (or [undefined]), and two inline sheets in a row
    are merged in place at index [acc.length - 1]. *)
Definition mergeInlineCss (acc : list StylesheetAsset) (current : StylesheetAsset)
  : list StylesheetAsset :=
  match last acc, current with
  | Some (InlineSheet lastContent), InlineSheet content =>
      <[ length acc - 1 := InlineSheet (lastContent +:+ content) ]> acc
  | _, _ => acc ++ [current]
  end.

(** [sheets.reduce(mergeInlineCss, [])] *)
Definition mergeStylesheets (sheets : list StylesheetAsset) : list StylesheetAsset :=
  foldl mergeInlineCss [] sheets.

Definition isInlineSheet (sheet : StylesheetAsset) : bool :=
  match sheet with
  | InlineSheet _ => true
  | ExternalSheet _ => false
  end.

(** Two inline sheets next to each other somewhere in the list. *)
Fixpoint adjacentInline (sheets : list StylesheetAsset) : bool :=
  match sheets with
  | a :: (b :: _) as rest => (isInlineSheet a && isInlineSheet b) || adjacentInline rest
  | _ => false
  end.

Fixpoint characters (s : string) : list ascii :=
  match s with
  | EmptyString => []
  | String c s' => c :: characters s'
  end.

(** What a browser receives: the characters of the inline sheets and the
    references to the external ones, in document order. *)
Definition cssStream (sheets : list StylesheetAsset) : list (ascii + string) :=
  sheets ≫= (λ sheet, match sheet with
                      | InlineSheet content => inl <$> characters content
                      | ExternalSheet src => [inr src]
                      end).

(** ** Reading a trace, continued *)

(** The render context [generatePath] obtains for a pathname. *)
Definition renderContextOf (E : Externals) (pathname : string) (opts : StaticBuildOptions)
    (gopts : GeneratePathOptions) (s : BuildState) : Outcome RenderContext :=
  let route := pd_route (go_pageData gopts) in
  let config := config (settings opts) in
  createRenderContext E (routeCache s) (go_mod gopts) route pathname
    (getUrlForPath pathname (base config) (origin opts) (build_format config) (rtype route)).

(** Where [generatePath] puts the output of a pathname. *)
Definition outFolderOf (E : Externals) (pathname : string) (opts : StaticBuildOptions)
    (gopts : GeneratePathOptions) : string :=
  getOutFolder E (config (settings opts)) pathname (rtype (pd_route (go_pageData gopts))).

Definition outFileOf (E : Externals) (pathname : string) (opts : StaticBuildOptions)
    (gopts : GeneratePathOptions) : string :=
  getOutFile E (config (settings opts)) (outFolderOf E pathname opts gopts) pathname
    (rtype (pd_route (go_pageData gopts))).

(** The name [addPageName] records for a pathname. *)
Definition pageNameOf (pathname : string) (opts : StaticBuildOptions) : string :=
  if shouldAppendForwardSlash (trailingSlash (config (settings opts)))
       (build_format (config (settings opts)))
  then Js.dropLeadingSlash (Js.ensureTrailingSlash pathname)
  else Js.dropLeadingSlash pathname.

(** The directory handed to the [astro:build:generated] hooks. *)
Definition generatedDir (config : AstroConfig) (buildConfig : BuildConfig) : string :=
  match output config with
  | output_server => bc_client buildConfig
  | _ => outDir config
  end.

(** The hook invocations [runHookBuildGenerated] performs. *)
Definition generatedHooks (config : AstroConfig) (buildConfig : BuildConfig) : list Event :=
  (λ integration, HookBuildGenerated (int_name integration) (generatedDir config buildConfig))
    <$> filter (λ integration, hook_build_generated integration) (integrations config).

(** [s] with [events] appended to its trace. *)
Definition logged (events : list Event) (s : BuildState) : BuildState :=
  {| builtPaths := builtPaths s; routeCache := routeCache s; pageNames := pageNames s;
     distURL := distURL s; trace := trace s ++ events |}.

(** The pathname of a "Generating" debug line. *)
Definition generatingOf (e : Event) : option string :=
  match e with
  | Logged (DebugGenerating pathname) => Some pathname
  | _ => None
  end.

(** The pathnames [generatePath] was entered for, oldest first. *)
Definition generated (s : BuildState) : list string := omap generatingOf (trace s).

(** Events of rendering and writing one path. *)
Definition isPathEvent (e : Event) : bool :=
  match e with
  | Logged (DebugGenerating _) | RenderedPage _ _ | CalledEndpoint _ _
  | Mkdir _ | WriteFile _ _ _ => true
  | _ => false
  end.

(** Events of resolving the paths of a route. *)
Definition isResolveEvent (e : Event) : bool :=
  match e with
  | CalledGetStaticPaths _ _
  | Logged (DebugStaticPaths _ _) | Logged (DebugStaticPathsFailed _) => true
  | _ => false
  end.

(** Events of generating one page. *)
Definition isPageEvent (e : Event) : bool :=
  isPathEvent e || isResolveEvent e ||
  match e with
  | Logged (LogSkippingDraft _) | Logged (LogRoute _ _) | Logged (LogPathLine _ _) => true
  | _ => false
  end.

(** Events that follow the generation of the pages: the build hooks and
    the closing log line. *)
Definition isClosingEvent (e : Event) : bool :=
  match e with
  | HookBuildGenerated _ _ | Logged LogCompleted => true
  | _ => false
  end.

Definition isImportEvent (e : Event) : bool :=
  match e with
  | Imported _ => true
  | _ => false
  end.

(** A computation that only appends to the trace, and only events that
    satisfy [P]. *)
Definition emits {A} (P : Event → bool) (m : Build A) : Prop :=
  ∀ s, ∃ events, trace (snd (m s)) = trace s ++ events ∧ forallb P events = true.

(** A bundle entry of a page that is rendered on demand. *)
Definition isOnDemandEntry (E : Externals) (internals : BuildInternals)
    (entry : string * string) : bool :=
  Js.includes (ASTRO_PAGE_MODULE_ID E) (fst entry) &&
  match Js.splitColon (fst entry) with
  | _ :: pageName :: _ =>
      match pagesByComponent internals
              !! Js.replaceFirst (ASTRO_PAGE_EXTENSION_POST_PATTERN E) "." pageName with
      | Some pageData => negb (prerender (pd_route pageData))
      | None => false
      end
  | _ => false
  end.

(** What [generatePages] does with one page of the bundle. *)
Definition importAndGenerate (E : Externals) (opts : StaticBuildOptions)
    (internals : BuildInternals) (outFolder : string)
    (pageData : PageBuildData) (filePath : string) : Build unit :=
  emit (Imported filePath) ;;
  ssrEntryPage ← await (importEntry E outFolder filePath);
  generatePage E opts internals pageData ssrEntryPage.

(** ** More sites *)

Module Cases.

(** The small site with other answers from the renderer, the endpoint
    handler and the enumeration callback. *)
Definition externals (rendered : Outcome Response) (called : Outcome EndpointCallResult)
    (enumerated : Outcome RouteCacheEntry) : Externals :=
  {| isHybridOutput := isHybridOutput Demo.externals;
     ASTRO_PAGE_MODULE_ID := ASTRO_PAGE_MODULE_ID Demo.externals;
     ASTRO_PAGE_EXTENSION_POST_PATTERN := ASTRO_PAGE_EXTENSION_POST_PATTERN Demo.externals;
     PAGE_SCRIPT_ID := PAGE_SCRIPT_ID Demo.externals;
     getOutDirWithinCwd := getOutDirWithinCwd Demo.externals;
     importEntry := importEntry Demo.externals;
     enumerateStaticPaths := λ _ _ _, enumerated;
     createRenderContext := createRenderContext Demo.externals;
     renderPage := λ _ _, rendered;
     callEndpoint := λ _ _ _, called;
     isRedirectAllowed := isRedirectAllowed Demo.externals;
     getOutFolder := getOutFolder Demo.externals;
     getOutFile := getOutFile Demo.externals;
     getOutputFilename := getOutputFilename Demo.externals;
     getStaticImageList := ["src/assets/logo.png"];
     generateImageInternal := λ _, Ok (Some false) |}.

Definition noContent : Response := {| status := 204; location := None; resp_body := None |}.

Definition failure : SSRError := plainError "boom".


(** The small site with a page-stage script injected. *)
Definition withPageScript : StaticBuildOptions :=
  {| settings := {| config := Demo.siteConfig output_static;
                    scripts := [ {| stage := stage_page; content := "console.log(1)" |} ] |};
     buildConfig := buildConfig (Demo.options output_static);
     manifest := manifest (Demo.options output_static);
     origin := origin (Demo.options output_static) |}.

(** A bundle with a chunk that is no page, then the blog page. *)
Definition mixedBundle : BuildInternals :=
  Demo.internalsOf [ ("astro/client/idle.js", "chunks/idle.mjs");
                     ("@astro-page:src/pages/blog@_@astro", "pages/blog.mjs") ]
                   [Demo.blogRoute].

End Cases.

(** * Properties *)

(** ** The monad and the string helpers *)

Ltac unfold_build :=
  unfold mbind, mret, Build_bind, Build_ret, try_catch, await, throw, emit,
    getBuiltPaths, setBuiltPaths, routeCache_set, pageNames_push, distURL_set in *.

Ltac simpl_state := cbn [builtPaths routeCache pageNames distURL trace fst snd].

Lemma removeTrailingForwardSlash_empty : Path.removeTrailingForwardSlash "" = "".
Proof. reflexivity. Qed.

(** Exactly one final slash goes, and only a final slash. *)
Lemma removeTrailingForwardSlash_endsWithSlash (path : string) :
  if Js.endsWithSlash path
  then path = Path.removeTrailingForwardSlash path +:+ "/"
  else Path.removeTrailingForwardSlash path = path.
Proof.
  induction path as [|c rest IH]; [reflexivity|].
  destruct rest as [|c' rest'].
  - cbn. destruct (Ascii.eqb_spec c Js.slash) as [->|Hne]; reflexivity.
  - change (Js.endsWithSlash (String c (String c' rest')))
      with (Js.endsWithSlash (String c' rest')).
    change (Path.removeTrailingForwardSlash (String c (String c' rest')))
      with (String c (Path.removeTrailingForwardSlash (String c' rest'))).
    destruct (Js.endsWithSlash (String c' rest')).
    + rewrite IH at 1. reflexivity.
    + by rewrite IH.
Qed.

Example splitColon_page_entry :
  Js.splitColon "@astro-page:src/pages/[slug]@_@astro"
  = ["@astro-page"; "src/pages/[slug]@_@astro"].
Proof. reflexivity. Qed.

Example replaceFirst_extension :
  Js.replaceFirst "@_@" "." "src/pages/[slug]@_@astro" = "src/pages/[slug].astro".
Proof. reflexivity. Qed.

Example page_names :
  Js.dropLeadingSlash (Js.ensureTrailingSlash "/blog") = "blog/"
  ∧ Js.dropLeadingSlash (Js.ensureTrailingSlash "/blog/") = "blog/"
  ∧ Js.dropLeadingSlash (Js.ensureTrailingSlash "") = "".
Proof. repeat split. Qed.

Example url_for_paths :
  getUrlForPath "/blog" "/" "http://localhost" directory page = ("/blog/", "http://localhost")
  ∧ getUrlForPath "/blog/" "/" "http://localhost" file page = ("/blog.html", "http://localhost")
  ∧ getUrlForPath "/feed.xml" "/" "http://localhost" directory endpoint
    = ("/feed.xml", "http://localhost")
  ∧ getUrlForPath "" "/docs/" "http://localhost" directory page
    = ("/docs/", "http://localhost").
Proof. repeat split. Qed.

Lemma forEach_builtPaths_add (f : string → string) (paths : list string) (s : BuildState) :
  forEach (λ p, builtPaths_add (f p)) paths s
  = setBuiltPaths (list_to_set (f <$> paths) ∪ builtPaths s) s.
Proof.
  revert s. induction paths as [|p paths IH]; intros s.
  - destruct s. unfold_build. cbn. do 2 f_equal. by rewrite (left_id_L ∅ (∪)).
  - cbn [forEach]. unfold mbind, Build_bind at 1. unfold builtPaths_add at 1.
    rewrite IH. unfold setBuiltPaths. cbn. do 2 f_equal.
    rewrite (assoc_L (∪)). f_equal. apply (comm_L (∪)).
Qed.

Lemma filterStaticPaths_strings (bp : gset string) (route : RouteData)
    (manifest : list RouteData) (l : list string) :
  filterStaticPaths bp route manifest (Some <$> l)
  = Ok (filter (λ p, keepStaticPath bp route manifest p) l).
Proof.
  induction l as [|p l IH]; [reflexivity|].
  cbn [fmap list_fmap filterStaticPaths]. cbn [fmap] in IH. rewrite IH.
  rewrite filter_cons. destruct (keepStaticPath bp route manifest p); reflexivity.
Qed.

Lemma candidate_bindings (route : RouteData) (l : list StaticPath) (bindings : list Params) :
  sp_params <$> l = Some <$> bindings →
  candidate route <$> l = Some <$> (generate route <$> bindings).
Proof.
  revert bindings. induction l as [|sp l IH]; intros [|b bs] H; try discriminate.
  - reflexivity.
  - cbn in H. injection H as Hsp Hl. cbn. unfold candidate at 1. rewrite Hsp.
    f_equal. apply IH, Hl.
Qed.

(** ** [getPathsForRoute] *)

Section Resolver.

Context (E : Externals).

(** The fixed-pathname branch. *)
Lemma getPathsForRoute_fixed pageData mod_ opts s p :
  Js.truthy (pathname (pd_route pageData)) = Some p →
  getPathsForRoute E pageData mod_ opts s
  = (Ok [p], snd (builtPaths_add p s)).
Proof.
  intros Hp. unfold getPathsForRoute. rewrite Hp. reflexivity.
Qed.

(** The dynamic branch, when the enumeration succeeds and every candidate
    is a string. *)
Lemma getPathsForRoute_dynamic pageData mod_ opts s result paths :
  Js.truthy (pathname (pd_route pageData)) = None →
  enumerateStaticPaths E mod_ (pd_route pageData) (isSSR E (config (settings opts)))
  = Ok result →
  filterStaticPaths (builtPaths s) (pd_route pageData) (manifest opts)
    (candidate (pd_route pageData) <$> staticPaths result) = Ok paths →
  getPathsForRoute E pageData mod_ opts s
  = (Ok paths,
     {| builtPaths := list_to_set (Path.removeTrailingForwardSlash <$> paths) ∪ builtPaths s;
        routeCache := <[ rid (pd_route pageData) := result ]> (routeCache s);
        pageNames := pageNames s;
        distURL := distURL s;
        trace := trace s ++
          [ CalledGetStaticPaths (rid (pd_route pageData)) (isSSR E (config (settings opts)));
            Logged (DebugStaticPaths (component (pd_route pageData))
                      (length (staticPaths result))) ] |}).
Proof.
  intros Hp He Hf. unfold getPathsForRoute. rewrite Hp.
  unfold callGetStaticPaths. unfold_build. rewrite He. simpl_state. rewrite Hf.
  rewrite forEach_builtPaths_add. unfold setBuiltPaths. simpl_state.
  rewrite <- app_assoc. reflexivity.
Qed.

(** The dynamic branch always starts by calling the enumeration callback,
    and nothing else of the trace is an enumeration. *)
Lemma getPathsForRoute_dynamic_trace pageData mod_ opts s :
  Js.truthy (pathname (pd_route pageData)) = None →
  ∃ m, trace (snd (getPathsForRoute E pageData mod_ opts s))
       = trace s ++
         [ CalledGetStaticPaths (rid (pd_route pageData)) (isSSR E (config (settings opts)));
           Logged m ].
Proof.
  intros Hp. unfold getPathsForRoute. rewrite Hp.
  unfold callGetStaticPaths. unfold_build.
  destruct (enumerateStaticPaths E mod_ _ _) as [result|e]; simpl_state.
  - destruct (filterStaticPaths _ _ _ _) as [paths|e]; simpl_state.
    + rewrite forEach_builtPaths_add. unfold setBuiltPaths. simpl_state.
      rewrite <- app_assoc. eauto.
    + rewrite <- app_assoc. eauto.
  - rewrite <- app_assoc. eauto.
Qed.

End Resolver.

Lemma occurrences_filter (f : string → bool) (p : string) (l : list string) :
  occurrences p (filter (λ q, f q) l) = if f p then occurrences p l else 0.
Proof.
  unfold occurrences. induction l as [|q l IH].
  - destruct (f p); reflexivity.
  - rewrite (filter_cons (λ q, f q)). destruct (decide (q = p)) as [->|Hne].
    + destruct (f p) eqn:Hf.
      * rewrite decide_True by exact I. rewrite !filter_cons_True by done.
        cbn [length]. by rewrite IH.
      * rewrite decide_False by exact id. exact IH.
    + case_decide.
      * rewrite !(filter_cons_False (λ q0, q0 = p)) by done. exact IH.
      * rewrite (filter_cons_False (λ q0, q0 = p) q l) by done. exact IH.
Qed.

Lemma keepStaticPath_present bp route manifest p :
  Path.removeTrailingForwardSlash p ∈ bp →
  keepStaticPath bp route manifest p = sameRoute (matchRoute p manifest) route.
Proof. intros Hin. unfold keepStaticPath. by rewrite decide_True. Qed.

Lemma keepStaticPath_absent bp route manifest p :
  Path.removeTrailingForwardSlash p ∉ bp →
  keepStaticPath bp route manifest p = true.
Proof. intros Hin. unfold keepStaticPath. by rewrite decide_False. Qed.

Section Arbitration.

Context (E : Externals).

(** A dynamic route whose enumeration succeeded with entries that all
    carry their bindings: the resolver returns the generated pathnames
    filtered against the set as it was on entry, and then registers what
    it kept. *)
Lemma getPathsForRoute_bindings pageData mod_ opts s result bindings :
  Js.truthy (pathname (pd_route pageData)) = None →
  enumerateStaticPaths E mod_ (pd_route pageData) (isSSR E (config (settings opts)))
  = Ok result →
  sp_params <$> staticPaths result = Some <$> bindings →
  let paths := filter (λ p, keepStaticPath (builtPaths s) (pd_route pageData) (manifest opts) p)
                 (generate (pd_route pageData) <$> bindings) in
  fst (getPathsForRoute E pageData mod_ opts s) = Ok paths ∧
  builtPaths (snd (getPathsForRoute E pageData mod_ opts s))
  = list_to_set (Path.removeTrailingForwardSlash <$> paths) ∪ builtPaths s.
Proof.
  intros Hp He Hb paths.
  rewrite (getPathsForRoute_dynamic E pageData mod_ opts s result paths Hp He).
  - split; reflexivity.
  - rewrite (candidate_bindings _ _ _ Hb). apply filterStaticPaths_strings.
Qed.

(** C1 (as amended).  Resolving a dynamic route: a generated pathname whose
    stripped form is already in the Built-Paths Set is kept exactly when
    the manifest matches it to the route being resolved; one that is not
    yet in the set is kept without arbitration; in both cases its stripped
    form is in the set afterwards, so every route resolved later is
    arbitrated for it. *)
Theorem C1_arbitration_of_built_paths pageData mod_ opts s result bindings p :
  Js.truthy (pathname (pd_route pageData)) = None →
  enumerateStaticPaths E mod_ (pd_route pageData) (isSSR E (config (settings opts)))
  = Ok result →
  sp_params <$> staticPaths result = Some <$> bindings →
  p ∈ generate (pd_route pageData) <$> bindings →
  ∃ paths,
    fst (getPathsForRoute E pageData mod_ opts s) = Ok paths ∧
    (Path.removeTrailingForwardSlash p ∈ builtPaths s →
       (p ∈ paths ↔ sameRoute (matchRoute p (manifest opts)) (pd_route pageData) = true)) ∧
    (Path.removeTrailingForwardSlash p ∉ builtPaths s → p ∈ paths) ∧
    Path.removeTrailingForwardSlash p
      ∈ builtPaths (snd (getPathsForRoute E pageData mod_ opts s)).
Proof.
  intros Hp He Hb Hin.
  destruct (getPathsForRoute_bindings pageData mod_ opts s result bindings Hp He Hb)
    as [Hpaths Hbuilt].
  eexists. split; [exact Hpaths|]. split; [|split].
  - intros Hpresent. rewrite list_elem_of_filter.
    rewrite (keepStaticPath_present _ _ _ _ Hpresent).
    split; [intros [Hk _]; by apply Is_true_true_1 | intros Hk; split; [by rewrite Hk | done]].
  - intros Habsent. apply list_elem_of_filter.
    rewrite (keepStaticPath_absent _ _ _ _ Habsent). done.
  - rewrite Hbuilt. destruct (decide (Path.removeTrailingForwardSlash p ∈ builtPaths s))
      as [Hpresent|Habsent].
    + apply elem_of_union_r, Hpresent.
    + apply elem_of_union_l, elem_of_list_to_set, list_elem_of_fmap_2.
      apply list_elem_of_filter. rewrite (keepStaticPath_absent _ _ _ _ Habsent). done.
Qed.

(** C2 (as amended).  Duplicates inside one enumeration are not told
    apart: every occurrence of a generated pathname is judged against the
    Built-Paths Set as it was when resolution began.  A pathname absent
    from that set is kept as often as it was enumerated; one present in it
    is kept as often as enumerated when the manifest matches it to this
    route, and not at all otherwise. *)
Theorem C2_duplicates_judged_alike pageData mod_ opts s result bindings :
  Js.truthy (pathname (pd_route pageData)) = None →
  enumerateStaticPaths E mod_ (pd_route pageData) (isSSR E (config (settings opts)))
  = Ok result →
  sp_params <$> staticPaths result = Some <$> bindings →
  ∃ paths,
    fst (getPathsForRoute E pageData mod_ opts s) = Ok paths ∧
    ∀ p,
      (Path.removeTrailingForwardSlash p ∉ builtPaths s →
         occurrences p paths = occurrences p (generate (pd_route pageData) <$> bindings)) ∧
      (Path.removeTrailingForwardSlash p ∈ builtPaths s →
         occurrences p paths
         = if sameRoute (matchRoute p (manifest opts)) (pd_route pageData)
           then occurrences p (generate (pd_route pageData) <$> bindings) else 0).
Proof.
  intros Hp He Hb.
  destruct (getPathsForRoute_bindings pageData mod_ opts s result bindings Hp He Hb)
    as [Hpaths _].
  eexists. split; [exact Hpaths|]. intros p.
  rewrite (occurrences_filter
             (keepStaticPath (builtPaths s) (pd_route pageData) (manifest opts))).
  split; intros Hin.
  - by rewrite (keepStaticPath_absent _ _ _ _ Hin).
  - by rewrite (keepStaticPath_present _ _ _ _ Hin).
Qed.

(** C5 (as amended).  Each enumerated binding is mapped through the
    route's generator; the paths to generate are a sublist, in enumeration
    order, of the generated pathnames, and contain every generated
    pathname whose stripped form is not yet in the Built-Paths Set.  The
    empty pathname is no exception: it is kept unless [""] is already in
    the set and the manifest matches it to another route. *)
Theorem C5_generated_pathnames_kept pageData mod_ opts s result bindings :
  Js.truthy (pathname (pd_route pageData)) = None →
  enumerateStaticPaths E mod_ (pd_route pageData) (isSSR E (config (settings opts)))
  = Ok result →
  sp_params <$> staticPaths result = Some <$> bindings →
  ∃ paths,
    fst (getPathsForRoute E pageData mod_ opts s) = Ok paths ∧
    paths `sublist_of` generate (pd_route pageData) <$> bindings ∧
    (∀ p, p ∈ generate (pd_route pageData) <$> bindings →
          Path.removeTrailingForwardSlash p ∉ builtPaths s → p ∈ paths) ∧
    ("" ∈ generate (pd_route pageData) <$> bindings →
     ("" ∈ paths ↔
      "" ∉ builtPaths s ∨
      sameRoute (matchRoute "" (manifest opts)) (pd_route pageData) = true)).
Proof.
  intros Hp He Hb.
  destruct (getPathsForRoute_bindings pageData mod_ opts s result bindings Hp He Hb)
    as [Hpaths _].
  eexists. split; [exact Hpaths|]. split; [apply sublist_filter|]. split.
  - intros p Hin Habsent. apply list_elem_of_filter.
    rewrite (keepStaticPath_absent _ _ _ _ Habsent). done.
  - intros Hin. rewrite list_elem_of_filter. unfold keepStaticPath.
    rewrite removeTrailingForwardSlash_empty. case_decide as Hd.
    + split.
      * intros [Hk _]. right. by apply Is_true_true_1.
      * intros [Hne|Hk]; [done|]. split; [by rewrite Hk | done].
    + split; [by left | done].
Qed.

(** C3 (as amended).  Resolving a route without a fixed pathname invokes
    the enumeration callback exactly once per resolution, whatever the
    Route Cache already holds: the resolver writes the cache and never
    reads it.  Two resolutions in a row therefore invoke it twice, and a
    successful enumeration is what the cache holds for the route
    afterwards. *)
Theorem C3_enumeration_on_every_resolution pageData mod_ opts s :
  Js.truthy (pathname (pd_route pageData)) = None →
  let s1 := snd (getPathsForRoute E pageData mod_ opts s) in
  let s2 := snd (getPathsForRoute E pageData mod_ opts s1) in
  enumerations (pd_route pageData) s1 = S (enumerations (pd_route pageData) s) ∧
  enumerations (pd_route pageData) s2 = S (S (enumerations (pd_route pageData) s)) ∧
  ∀ result,
    enumerateStaticPaths E mod_ (pd_route pageData) (isSSR E (config (settings opts)))
    = Ok result →
    routeCache s1 !! rid (pd_route pageData) = Some result.
Proof.
  intros Hp s1 s2.
  assert (Hstep : ∀ s0, enumerations (pd_route pageData)
                          (snd (getPathsForRoute E pageData mod_ opts s0))
                        = S (enumerations (pd_route pageData) s0)).
  { intros s0. destruct (getPathsForRoute_dynamic_trace E pageData mod_ opts s0 Hp)
      as [m Hm].
    unfold enumerations. rewrite Hm, filter_app, length_app.
    rewrite filter_cons_True by (cbn; rewrite Nat.eqb_refl; exact I).
    rewrite filter_cons_False by (cbn; exact id).
    cbn. lia. }
  split; [apply Hstep|]. split; [unfold s2; rewrite Hstep; unfold s1; by rewrite Hstep|].
  intros result He. unfold s1, getPathsForRoute. rewrite Hp.
  unfold callGetStaticPaths. unfold_build. rewrite He. simpl_state.
  destruct (filterStaticPaths _ _ _ _) as [paths|e]; simpl_state.
  - rewrite forEach_builtPaths_add. unfold setBuiltPaths. simpl_state.
    apply lookup_insert_eq.
  - apply lookup_insert_eq.
Qed.

(** C4.  A route that carries a fixed pathname resolves to exactly that
    pathname, which is in the Built-Paths Set as soon as resolution
    returns; resolution itself renders and writes nothing, so the
    registration precedes every render of the route. *)
Theorem C4_fixed_pathname_resolution pageData mod_ opts s p :
  pathname (pd_route pageData) = Some p →
  p ≠ "" →
  fst (getPathsForRoute E pageData mod_ opts s) = Ok [p] ∧
  p ∈ builtPaths (snd (getPathsForRoute E pageData mod_ opts s)) ∧
  builtPaths (snd (getPathsForRoute E pageData mod_ opts s)) = {[ p ]} ∪ builtPaths s ∧
  trace (snd (getPathsForRoute E pageData mod_ opts s)) = trace s.
Proof.
  intros Hp Hne.
  assert (Ht : Js.truthy (pathname (pd_route pageData)) = Some p).
  { rewrite Hp. destruct p; [done|reflexivity]. }
  rewrite (getPathsForRoute_fixed E pageData mod_ opts s p Ht).
  unfold builtPaths_add. simpl_state.
  repeat split. apply elem_of_union_l, elem_of_singleton. reflexivity.
Qed.

End Arbitration.

(** ** Rendering and writing *)

Lemma fsEvents_snoc_other (l : list Event) (e : Event) :
  isFsEvent e = false →
  filter isFsEvent (l ++ [e]) = filter isFsEvent l.
Proof.
  intros He. rewrite filter_app, filter_cons_False by (rewrite He; exact id).
  apply app_nil_r.
Qed.

(** Case analysis on every test the computation in the goal performs. *)
Ltac run_build :=
  unfold_build;
  repeat (case_match; simplify_eq;
          cbn [builtPaths routeCache pageNames distURL trace fst snd] in * ).

Section Generation.

Context (E : Externals).

(** C7.  When rendering a path (page or endpoint) yields a response whose
    redirect the configured policy does not allow, [generatePath] fails
    with [RedirectNotAllowedError] and has performed no directory creation
    and no file write for it. *)
Theorem C7_disallowed_redirect_writes_nothing pathname opts gopts middleware s response :
  pageScriptResolved E opts gopts = true →
  renderedResponse E pathname opts gopts middleware s = Some response →
  isRedirectAllowed E response (config (settings opts)) = false →
  fst (generatePath E pathname opts gopts middleware s) = Throw redirectNotAllowedError ∧
  fsEvents (snd (generatePath E pathname opts gopts middleware s)) = fsEvents s ∧
  distURL (snd (generatePath E pathname opts gopts middleware s)) = distURL s.
Proof.
  intros Hscript Hrender Hpolicy.
  unfold renderedResponse, pageOutcome, pageScriptResolved in *.
  unfold generatePath, fsEvents, addPageName, throwIfRedirectNotAllowed, callMiddleware.
  unfold getRouteCache.
  set (url := getUrlForPath _ _ _ _ _) in *. clearbody url.
  run_build; try done.
  all: try (apply bool_decide_eq_true in Hscript as [? ?]; congruence).
  all: try congruence.
  all: by rewrite !fsEvents_snoc_other by reflexivity.
Qed.

(** C8.  A page whose module carries [frontmatter.draft === true], built
    with drafts disabled: [generatePage] returns normally, and the only
    thing that happened is the log line of the skip.  The Built-Paths Set,
    the Route Cache, the page names and the routes' output locations are
    untouched, nothing was rendered and nothing was written. *)
Theorem C8_draft_is_skipped opts internals pageData ssrEntry pageModule s :
  sp_page ssrEntry = Some (Ok pageModule) →
  frontmatter pageModule = Some (Some (draft_bool true)) →
  markdown_drafts (config (settings opts)) = false →
  let s' := snd (generatePage E opts internals pageData ssrEntry s) in
  fst (generatePage E opts internals pageData ssrEntry s) = Ok tt ∧
  trace s' = trace s ++ [Logged (LogSkippingDraft (component (pd_route pageData)))] ∧
  filter isRenderEvent (trace s') = filter isRenderEvent (trace s) ∧
  fsEvents s' = fsEvents s ∧
  builtPaths s' = builtPaths s ∧ routeCache s' = routeCache s ∧
  pageNames s' = pageNames s ∧ distURL s' = distURL s.
Proof.
  intros Hpage Hfm Hdrafts s'.
  assert (Hskip : shouldSkipDraft pageModule (settings opts) = true).
  { unfold shouldSkipDraft. by rewrite Hdrafts, Hfm. }
  unfold s', generatePage, fsEvents. rewrite Hpage. unfold_build. rewrite Hskip.
  simpl_state. rewrite !filter_app. repeat split; apply app_nil_r.
Qed.

Lemma hasPrerenderedPages_loop_false (pages : list PageBuildData) :
  Forall (λ pageData, prerender (pd_route pageData) = false) pages →
  hasPrerenderedPages_loop pages = false.
Proof.
  induction 1 as [|pageData pages Hhead _ IH]; [reflexivity|].
  cbn. by rewrite Hhead.
Qed.

(** C10.  In server output mode, or in hybrid output mode, with no page of
    the build internals marked [prerender], [generatePages] returns at once:
    the state is as before (nothing logged, imported, rendered or written,
    and no build hook invoked). *)
Theorem C10_nothing_to_prerender opts internals s :
  output (config (settings opts)) = output_server
  ∨ isHybridOutput E (config (settings opts)) = true →
  map_Forall (λ _ pageData, prerender (pd_route pageData) = false)
    (pagesByComponent internals) →
  generatePages E opts internals s = (Ok tt, s).
Proof.
  intros Hmode Hnone. unfold generatePages.
  assert (Hssr : isSSR E (config (settings opts)) = true).
  { unfold isSSR. destruct Hmode as [-> | Hh]; [reflexivity|].
    by destruct (output _). }
  assert (Hpre : hasPrerenderedPages internals = false).
  { apply hasPrerenderedPages_loop_false. unfold eachPageData.
    apply map_Forall_to_list in Hnone. apply Forall_fmap.
    eapply Forall_impl; [exact Hnone|]. by intros [component pageData]. }
  by rewrite Hssr, Hpre.
Qed.

End Generation.

Lemma ensureTrailingSlash_endsWithSlash (s : string) :
  Js.endsWithSlash (Js.ensureTrailingSlash s) = true.
Proof.
  unfold Js.ensureTrailingSlash. destruct (Js.endsWithSlash s) eqn:Hs; [exact Hs|].
  clear Hs. induction s as [|c s IH]; [reflexivity|].
  cbn. destruct s; [reflexivity|exact IH].
Qed.

(** C6.  Whether an output path gets a trailing slash is a function of the
    trailing-slash policy and the build format alone: [always] yields
    [true], [never] yields [false], and [ignore] yields [true] for the
    directory format and [false] for the file format.  [addPageName]
    consults nothing else: the name it records is the pathname without its
    leading slash, made to end in a slash first exactly under that
    decision. *)
Theorem C6_trailing_slash_decision :
  (∀ buildFormat, shouldAppendForwardSlash always buildFormat = true) ∧
  (∀ buildFormat, shouldAppendForwardSlash never buildFormat = false) ∧
  shouldAppendForwardSlash ignore directory = true ∧
  shouldAppendForwardSlash ignore file = false ∧
  ∀ pathname opts s,
    ∃ slashed,
      pageNames (snd (addPageName pathname opts s))
      = pageNames s ++ [Js.dropLeadingSlash slashed] ∧
      if shouldAppendForwardSlash (trailingSlash (config (settings opts)))
           (build_format (config (settings opts)))
      then slashed = Js.ensureTrailingSlash pathname ∧ Js.endsWithSlash slashed = true
      else slashed = pathname.
Proof.
  repeat split. intros pathname opts s. unfold addPageName, pageNames_push. simpl_state.
  destruct (shouldAppendForwardSlash _ _).
  - eexists. split; [reflexivity|]. split; [reflexivity|].
    apply ensureTrailingSlash_endsWithSlash.
  - eexists. split; reflexivity.
Qed.

(** ** The Built-Paths Set only grows *)

Lemma grows_refl s : grows s s.
Proof. unfold grows. done. Qed.

Lemma grows_trans s1 s2 s3 : grows s1 s2 → grows s2 s3 → grows s1 s3.
Proof. unfold grows. intros H12 H23. by transitivity (builtPaths s2). Qed.

Lemma monotone_bind {A B} (m : Build A) (f : A → Build B) :
  monotone m → (∀ a, monotone (f a)) → monotone (m ≫= f).
Proof.
  intros Hm Hf s. unfold mbind, Build_bind. specialize (Hm s).
  destruct (m s) as [[a|e] s1]; cbn in *; [|exact Hm].
  eapply grows_trans; [exact Hm | apply Hf].
Qed.

Lemma monotone_ret {A} (a : A) : monotone (mret a : Build A).
Proof. intros s. apply grows_refl. Qed.

Lemma monotone_emit e : monotone (emit e).
Proof. intros s. unfold grows. cbn. done. Qed.

Lemma monotone_await {A} (o : Outcome A) : monotone (await o).
Proof. intros s. apply grows_refl. Qed.

Lemma monotone_throw {A} (e : SSRError) : monotone (throw e : Build A).
Proof. intros s. apply grows_refl. Qed.

Lemma monotone_builtPaths_add p : monotone (builtPaths_add p).
Proof. intros s. unfold grows, builtPaths_add. cbn. apply union_subseteq_r. Qed.

Section Monotonicity.

Context (E : Externals).

Lemma getPathsForRoute_monotone pageData mod_ opts :
  monotone (getPathsForRoute E pageData mod_ opts).
Proof.
  intros s. unfold grows, getPathsForRoute, callGetStaticPaths.
  destruct (Js.truthy _) as [p|].
  - apply (monotone_builtPaths_add p s).
  - unfold_build.
    destruct (enumerateStaticPaths E mod_ _ _) as [result|e]; simpl_state; [|done].
    destruct (filterStaticPaths _ _ _ _) as [paths|e]; simpl_state; [|done].
    rewrite forEach_builtPaths_add. unfold setBuiltPaths. simpl_state.
    apply union_subseteq_r.
Qed.

(** Rendering and writing a path leaves the set alone. *)
Lemma generatePath_builtPaths pathname opts gopts middleware s :
  builtPaths (snd (generatePath E pathname opts gopts middleware s)) = builtPaths s.
Proof.
  unfold generatePath, addPageName, throwIfRedirectNotAllowed, callMiddleware, getRouteCache.
  set (url := getUrlForPath _ _ _ _ _). clearbody url.
  run_build; done.
Qed.

Lemma generatePage_loop_builtPaths opts gopts middleware paths s :
  builtPaths (snd (generatePage_loop E opts gopts middleware paths s)) = builtPaths s.
Proof.
  revert s. induction paths as [|path rest IH]; intros s; [reflexivity|].
  cbn [generatePage_loop]. unfold mbind, Build_bind at 1.
  pose proof (generatePath_builtPaths path opts gopts middleware s) as Hpath.
  destruct (generatePath E path opts gopts middleware s) as [[[]|e] s1];
    cbn [snd] in Hpath; [|exact Hpath].
  unfold mbind, Build_bind, emit. rewrite IH. exact Hpath.
Qed.

Lemma generatePage_monotone opts internals pageData ssrEntry :
  monotone (generatePage E opts internals pageData ssrEntry).
Proof.
  intros s. unfold generatePage.
  destruct (sp_page ssrEntry) as [[pageModule|e]|]; try apply grows_refl.
  unfold mbind, Build_bind at 1. unfold await.
  destruct (shouldSkipDraft pageModule (settings opts)); [apply monotone_emit|].
  unfold mbind, Build_bind at 1. unfold emit at 1. unfold mbind, Build_bind at 1.
  match goal with
  | |- context [getPathsForRoute E pageData pageModule opts ?s1] =>
      pose proof (getPathsForRoute_monotone pageData pageModule opts s1) as Hres;
      destruct (getPathsForRoute E pageData pageModule opts s1) as [[paths|e] s2]
  end; cbn [snd] in *; [|exact Hres].
  unfold grows in *. rewrite generatePage_loop_builtPaths. exact Hres.
Qed.

Lemma eachPageDataFromEntryPoint_monotone internals entries body :
  (∀ pageData filePath, monotone (body pageData filePath)) →
  monotone (eachPageDataFromEntryPoint E internals entries body).
Proof.
  intros Hbody. induction entries as [|[entryPoint filePath] rest IH].
  - apply monotone_ret.
  - cbn [eachPageDataFromEntryPoint]. apply monotone_bind; [|intros _; exact IH].
    destruct (Js.includes _ _); [|apply monotone_ret].
    destruct (Js.splitColon entryPoint) as [|first [|pageName others]];
      try apply monotone_throw.
    destruct (pagesByComponent internals !! _) as [pageData|];
      [apply Hbody | apply monotone_throw].
Qed.

(** From the allocation of the set to the last page of the build, in
    server and in static output alike, no built path is ever removed. *)
Lemma generatePages_loops_monotone opts internals outFolder :
  monotone
    (eachPageDataFromEntryPoint E internals (entrySpecifierToBundleMap internals)
       (λ pageData filePath,
          if prerender (pd_route pageData)
          then emit (Imported filePath) ;;
               ssrEntryPage ← await (importEntry E outFolder filePath);
               generatePage E opts internals pageData ssrEntryPage
          else mret tt))
  ∧ monotone
      (eachPageDataFromEntryPoint E internals (entrySpecifierToBundleMap internals)
         (λ pageData filePath,
            emit (Imported filePath) ;;
            ssrEntryPage ← await (importEntry E outFolder filePath);
            generatePage E opts internals pageData ssrEntryPage)).
Proof.
  assert (Hpage : ∀ pageData filePath,
            monotone (emit (Imported filePath) ;;
                      ssrEntryPage ← await (importEntry E outFolder filePath);
                      generatePage E opts internals pageData ssrEntryPage)).
  { intros pageData filePath.
    apply monotone_bind; [apply monotone_emit|]. intros _.
    apply monotone_bind; [apply monotone_await|]. intros ssrEntryPage.
    apply generatePage_monotone. }
  split; apply eachPageDataFromEntryPoint_monotone; intros pageData filePath.
  - destruct (prerender (pd_route pageData)); [apply Hpage | apply monotone_ret].
  - apply Hpage.
Qed.

End Monotonicity.

(** C9 (the code at a failing input).  The index page has the fixed
    pathname ["/"].  Resolving it stores ["/"] itself in the Built-Paths
    Set, not its stripped form [""]; the lookup of a dynamic route strips
    before it tests membership, so the rest route, resolved next, keeps
    its own ["/"] without arbitration although the manifest matches ["/"]
    to the index page; in the whole build the rest route's render ends up
    written over the index page's. *)
Theorem C9_root_pathname_stored_unstripped :
  let opts := Demo.options output_static in
  let s1 := Demo.after (getPathsForRoute Demo.externals (Demo.pageOf Demo.indexRoute)
                          Demo.plainModule opts) Demo.start in
  builtPaths s1 = {[ "/" ]} ∧
  Path.removeTrailingForwardSlash "/" = "" ∧
  ("" ∉ builtPaths s1) ∧
  matchRoute "/" (manifest opts) = Some Demo.indexRoute ∧
  Demo.outcome (getPathsForRoute Demo.externals (Demo.pageOf Demo.restRoute)
                  Demo.plainModule opts) s1 = Ok ["/x"; "/"] ∧
  writesTo "dist/index.html"
    (Demo.after (generatePages Demo.externals opts Demo.indexFirst) Demo.start)
  = [ Text "src/pages/index.astro"; Text "src/pages/[...rest].astro" ].
Proof.
  cbv zeta. split; [by vm_compute|]. split; [reflexivity|].
  split; [by vm_compute|]. split; [reflexivity|]. split; by vm_compute.
Qed.

(** ** The small site, run *)

(** Against C1 as stated.  [slugRoute] precedes [restRoute] in the
    manifest and the manifest matches [/x] to it; both routes enumerate
    [/x].  When the bundler lists the rest route's page first, its render
    of [/x] is written, and the slug route's render is written over it
    afterwards: two renders reach the file, not only the winner's. *)
Lemma C1_lower_priority_render_is_written :
  let opts := Demo.options output_static in
  let s := Demo.after (generatePages Demo.externals opts Demo.restFirst) Demo.start in
  matchRoute "/x" (manifest opts) = Some Demo.slugRoute ∧
  Demo.outcome (generatePages Demo.externals opts Demo.restFirst) Demo.start = Ok tt ∧
  writesTo "dist/x/index.html" s
  = [ Text "src/pages/[...rest].astro"; Text "src/pages/[slug].astro" ].
Proof.
  cbv zeta. split; [reflexivity|]. split; by vm_compute.
Qed.

(** Against C2 as stated.  A route that enumerates the same binding twice
    gets both occurrences back, and both are rendered and written. *)
Lemma C2_later_duplicate_is_generated :
  let opts := Demo.options output_static in
  let page := Demo.pageOf Demo.twiceRoute in
  let s := Demo.after (generatePage Demo.externals opts (Demo.internalsOf [] [Demo.twiceRoute])
                         page Demo.builtModule) Demo.start in
  Demo.outcome (getPathsForRoute Demo.externals page Demo.plainModule opts) Demo.start
  = Ok ["/twice/x"; "/twice/x"] ∧
  filter isRenderEvent (trace s) = [ RenderedPage 3 "/twice/x"; RenderedPage 3 "/twice/x" ] ∧
  writesTo "dist/twice/x/index.html" s
  = [ Text "src/pages/twice/[slug].astro"; Text "src/pages/twice/[slug].astro" ].
Proof.
  cbv zeta. split; [by vm_compute|]. split; by vm_compute.
Qed.

(** Against C3 as stated.  The second resolution of the same route finds
    its entry in the Route Cache and still calls the enumeration callback:
    two invocations, where the claim allows one. *)
Lemma C3_second_resolution_enumerates_again :
  let resolve := getPathsForRoute Demo.externals (Demo.pageOf Demo.slugRoute)
                   Demo.plainModule (Demo.options output_static) in
  let s1 := Demo.after resolve Demo.start in
  let s2 := Demo.after resolve s1 in
  is_Some (routeCache s1 !! rid Demo.slugRoute) ∧
  enumerations Demo.slugRoute s1 = 1 ∧
  enumerations Demo.slugRoute s2 = 2 ∧
  ¬ (enumerations Demo.slugRoute s2 ≤ 1)%nat.
Proof.
  cbv zeta. split; [by vm_compute; eexists|].
  split; [by vm_compute|]. split; [by vm_compute|].
  vm_compute. lia.
Qed.

(** Against C5 as stated.  An enumerated entry whose generated pathname is
    empty is not dropped: it is returned, rendered and written. *)
Lemma C5_empty_pathname_is_generated :
  let opts := Demo.options output_static in
  let page := Demo.pageOf Demo.optionalRoute in
  let s := Demo.after (generatePage Demo.externals opts
                         (Demo.internalsOf [] [Demo.optionalRoute])
                         page Demo.builtModule) Demo.start in
  generate Demo.optionalRoute [("slug", "")] = "" ∧
  Demo.outcome (getPathsForRoute Demo.externals page Demo.plainModule opts) Demo.start
  = Ok [""; "/guide"] ∧
  RenderedPage 7 "" ∈ trace s ∧
  writesTo "dist/index.html" s = [ Text "src/pages/[...all].astro" ].
Proof.
  cbv zeta. split; [reflexivity|]. split; [by vm_compute|].
  split; [|by vm_compute].
  apply list_elem_of_lookup. exists 4. by vm_compute.
Qed.

(** ** Instances of the theorems on the small site *)

Lemma C1_arbitration_witness :
  let opts := Demo.options output_static in
  let s := Demo.after (getPathsForRoute Demo.externals (Demo.pageOf Demo.slugRoute)
                         Demo.plainModule opts) Demo.start in
  ∃ paths,
    fst (getPathsForRoute Demo.externals (Demo.pageOf Demo.restRoute)
           Demo.plainModule opts s) = Ok paths ∧
    (Path.removeTrailingForwardSlash "/x" ∈ builtPaths s →
       ("/x" ∈ paths ↔
        sameRoute (matchRoute "/x" (manifest opts)) (pd_route (Demo.pageOf Demo.restRoute))
        = true)) ∧
    (Path.removeTrailingForwardSlash "/x" ∉ builtPaths s → "/x" ∈ paths) ∧
    Path.removeTrailingForwardSlash "/x"
      ∈ builtPaths (snd (getPathsForRoute Demo.externals (Demo.pageOf Demo.restRoute)
                           Demo.plainModule opts s)).
Proof.
  cbv zeta.
  apply (C1_arbitration_of_built_paths Demo.externals (Demo.pageOf Demo.restRoute)
           Demo.plainModule (Demo.options output_static) _
           {| staticPaths := [Demo.slug "x"; Demo.slug ""] |}
           [ [("slug", "x")]; [("slug", "")] ] "/x").
  - reflexivity.
  - reflexivity.
  - reflexivity.
  - apply list_elem_of_here.
Defined.

Lemma C2_duplicates_witness :
  let opts := Demo.options output_static in
  let page := Demo.pageOf Demo.twiceRoute in
  ∃ paths,
    fst (getPathsForRoute Demo.externals page Demo.plainModule opts Demo.start) = Ok paths ∧
    ∀ p,
      (Path.removeTrailingForwardSlash p ∉ builtPaths Demo.start →
         occurrences p paths
         = occurrences p (generate (pd_route page) <$> [ [("slug", "x")]; [("slug", "x")] ])) ∧
      (Path.removeTrailingForwardSlash p ∈ builtPaths Demo.start →
         occurrences p paths
         = if sameRoute (matchRoute p (manifest opts)) (pd_route page)
           then occurrences p (generate (pd_route page) <$> [ [("slug", "x")]; [("slug", "x")] ])
           else 0).
Proof.
  cbv zeta.
  apply (C2_duplicates_judged_alike Demo.externals (Demo.pageOf Demo.twiceRoute)
           Demo.plainModule (Demo.options output_static) Demo.start
           {| staticPaths := [Demo.slug "x"; Demo.slug "x"] |}
           [ [("slug", "x")]; [("slug", "x")] ]).
  - reflexivity.
  - reflexivity.
  - reflexivity.
Defined.

Lemma C3_enumeration_witness :
  let page := Demo.pageOf Demo.slugRoute in
  let opts := Demo.options output_static in
  let s1 := snd (getPathsForRoute Demo.externals page Demo.plainModule opts Demo.start) in
  let s2 := snd (getPathsForRoute Demo.externals page Demo.plainModule opts s1) in
  enumerations (pd_route page) s1 = S (enumerations (pd_route page) Demo.start) ∧
  enumerations (pd_route page) s2 = S (S (enumerations (pd_route page) Demo.start)) ∧
  ∀ result,
    enumerateStaticPaths Demo.externals Demo.plainModule (pd_route page)
      (isSSR Demo.externals (config (settings opts))) = Ok result →
    routeCache s1 !! rid (pd_route page) = Some result.
Proof.
  apply (C3_enumeration_on_every_resolution Demo.externals (Demo.pageOf Demo.slugRoute)
           Demo.plainModule (Demo.options output_static) Demo.start).
  reflexivity.
Defined.

Lemma C4_fixed_pathname_witness :
  let resolve := getPathsForRoute Demo.externals (Demo.pageOf Demo.blogRoute)
                   Demo.plainModule (Demo.options output_static) in
  fst (resolve Demo.start) = Ok ["/blog"] ∧
  "/blog" ∈ builtPaths (snd (resolve Demo.start)) ∧
  builtPaths (snd (resolve Demo.start)) = {[ "/blog" ]} ∪ builtPaths Demo.start ∧
  trace (snd (resolve Demo.start)) = trace Demo.start.
Proof.
  apply (C4_fixed_pathname_resolution Demo.externals (Demo.pageOf Demo.blogRoute)
           Demo.plainModule (Demo.options output_static) Demo.start "/blog").
  - reflexivity.
  - discriminate.
Defined.

Lemma C5_generated_pathnames_witness :
  let opts := Demo.options output_static in
  let page := Demo.pageOf Demo.optionalRoute in
  let generated := generate (pd_route page) <$> [ [("slug", "")]; [("slug", "guide")] ] in
  ∃ paths,
    fst (getPathsForRoute Demo.externals page Demo.plainModule opts Demo.start) = Ok paths ∧
    paths `sublist_of` generated ∧
    (∀ p, p ∈ generated →
          Path.removeTrailingForwardSlash p ∉ builtPaths Demo.start → p ∈ paths) ∧
    ("" ∈ generated →
     ("" ∈ paths ↔
      ("" ∉ builtPaths Demo.start) ∨
      sameRoute (matchRoute "" (manifest opts)) (pd_route page) = true)).
Proof.
  cbv zeta.
  apply (C5_generated_pathnames_kept Demo.externals (Demo.pageOf Demo.optionalRoute)
           Demo.plainModule (Demo.options output_static) Demo.start
           {| staticPaths := [Demo.slug ""; Demo.slug "guide"] |}
           [ [("slug", "")]; [("slug", "guide")] ]).
  - reflexivity.
  - reflexivity.
  - reflexivity.
Defined.

Lemma C7_disallowed_redirect_witness :
  let run := generatePath Demo.externals "/move" (Demo.options output_static)
               (Demo.gopts Demo.moveRoute) None in
  fst (run Demo.start) = Throw redirectNotAllowedError ∧
  fsEvents (snd (run Demo.start)) = fsEvents Demo.start ∧
  distURL (snd (run Demo.start)) = distURL Demo.start.
Proof.
  apply (C7_disallowed_redirect_writes_nothing Demo.externals "/move"
           (Demo.options output_static) (Demo.gopts Demo.moveRoute) None Demo.start
           Demo.moved).
  - reflexivity.
  - reflexivity.
  - reflexivity.
Defined.

Lemma C8_draft_witness :
  let opts := Demo.options output_static in
  let page := Demo.pageOf Demo.blogRoute in
  let run := generatePage Demo.externals opts (Demo.internalsOf [] [Demo.blogRoute])
               page Demo.builtDraft in
  let s' := snd (run Demo.start) in
  fst (run Demo.start) = Ok tt ∧
  trace s' = trace Demo.start ++ [Logged (LogSkippingDraft (component (pd_route page)))] ∧
  filter isRenderEvent (trace s') = filter isRenderEvent (trace Demo.start) ∧
  fsEvents s' = fsEvents Demo.start ∧
  builtPaths s' = builtPaths Demo.start ∧ routeCache s' = routeCache Demo.start ∧
  pageNames s' = pageNames Demo.start ∧ distURL s' = distURL Demo.start.
Proof.
  apply (C8_draft_is_skipped Demo.externals (Demo.options output_static)
           (Demo.internalsOf [] [Demo.blogRoute]) (Demo.pageOf Demo.blogRoute)
           Demo.builtDraft Demo.draftModule Demo.start).
  - reflexivity.
  - reflexivity.
  - reflexivity.
Defined.

Lemma C10_nothing_to_prerender_witness :
  generatePages Demo.externals (Demo.options output_server) Demo.onDemandOnly Demo.start
  = (Ok tt, Demo.start).
Proof.
  apply (C10_nothing_to_prerender Demo.externals (Demo.options output_server)
           Demo.onDemandOnly Demo.start).
  - left. reflexivity.
  - apply map_Forall_to_list. vm_compute. repeat constructor.
Defined.

(** ** Stylesheet ordering and merging *)

Ltac split_comparisons :=
  repeat match goal with
         | |- context [(?x =? ?y)%Z] => destruct (Z.eqb_spec x y)
         | |- context [(?x >=? ?y)%Z] => rewrite (Z.geb_leb x y); destruct (Z.leb_spec y x)
         | |- context [(?x >? ?y)%Z] => rewrite (Z.gtb_ltb x y); destruct (Z.ltb_spec y x)
         | |- context [(?x <? ?y)%Z] => destruct (Z.ltb_spec x y)
         end; cbn [andb].

Lemma cssOrder_before (a b : OrderInfo) : cssOrder a b = (-1)%Z ↔ sortsBefore a b.
Proof.
  unfold cssOrder, sortsBefore. destruct a as [da oa], b as [db ob]. cbn [depth order].
  split_comparisons; split; intros; try lia.
Qed.

(** X1.  [cssOrder] never reports a tie, and two sheets compare in
    opposite ways exactly when they differ in [order] or in [depth]: a
    sheet compared with an equal one is reported as out of order both
    ways round. *)
Theorem cssOrder_sign_and_antisymmetry (a b : OrderInfo) :
  (cssOrder a b = 1 ∨ cssOrder a b = -1)%Z ∧
  (cssOrder a b = - cssOrder b a ↔ order a ≠ order b ∨ depth a ≠ depth b)%Z.
Proof.
  unfold cssOrder. destruct a as [da oa], b as [db ob]. cbn [depth order].
  split_comparisons; (split; [lia|]); split; intros; try lia.
Qed.

(** X2.  "Sorts before" according to [cssOrder] is transitive. *)
Theorem cssOrder_transitive (a b c : OrderInfo) :
  cssOrder a b = (-1)%Z → cssOrder b c = (-1)%Z → cssOrder a c = (-1)%Z.
Proof.
  rewrite !cssOrder_before. unfold sortsBefore. lia.
Qed.

Lemma cssOrder_transitive_witness :
  cssOrder {| depth := 2; order := 0 |} {| depth := 0; order := -1 |} = (-1)%Z.
Proof.
  apply (cssOrder_transitive {| depth := 2; order := 0 |} {| depth := 1; order := 0 |}
           {| depth := 0; order := -1 |}); reflexivity.
Defined.

Lemma mergeInlineCss_nil (current : StylesheetAsset) : mergeInlineCss [] current = [current].
Proof. by destruct current. Qed.

Lemma mergeInlineCss_snoc (acc : list StylesheetAsset) (lastAdded current : StylesheetAsset) :
  mergeInlineCss (acc ++ [lastAdded]) current
  = match lastAdded, current with
    | InlineSheet lastContent, InlineSheet content =>
        acc ++ [InlineSheet (lastContent +:+ content)]
    | _, _ => acc ++ [lastAdded; current]
    end.
Proof.
  unfold mergeInlineCss. rewrite last_snoc.
  destruct lastAdded as [lastContent|src], current as [content|src'];
    try by rewrite <- app_assoc.
  rewrite length_app. cbn [length].
  replace (length acc + 1 - 1) with (length acc + 0) by lia.
  by rewrite insert_app_r.
Qed.

Lemma characters_app (s1 s2 : string) :
  characters (s1 +:+ s2) = characters s1 ++ characters s2.
Proof.
  induction s1 as [|c s1 IH]; [reflexivity|].
  change (String c s1 +:+ s2) with (String c (s1 +:+ s2)).
  cbn [characters]. by rewrite IH.
Qed.

Lemma cssStream_app (l1 l2 : list StylesheetAsset) :
  cssStream (l1 ++ l2) = cssStream l1 ++ cssStream l2.
Proof. unfold cssStream. apply bind_app. Qed.

Lemma cssStream_mergeInlineCss (acc : list StylesheetAsset) (current : StylesheetAsset) :
  cssStream (mergeInlineCss acc current) = cssStream acc ++ cssStream [current].
Proof.
  destruct acc as [|lastAdded acc _] using rev_ind.
  - by rewrite mergeInlineCss_nil.
  - rewrite mergeInlineCss_snoc.
    assert (Hpair : ∀ x y, cssStream (acc ++ [x; y])
                           = (cssStream acc ++ cssStream [x]) ++ cssStream [y]).
    { intros x y. by rewrite <- !cssStream_app, <- app_assoc. }
    destruct lastAdded as [lastContent|src], current as [content|src'];
      rewrite ?Hpair, ?cssStream_app; try reflexivity.
    rewrite <- app_assoc. f_equal. unfold cssStream. cbn [mbind list_bind].
    rewrite !app_nil_r, characters_app. apply fmap_app.
Qed.

(** X3.  Merging the inline stylesheets of a page changes nothing of what
    is delivered: the characters of the inline sheets and the references to
    the external sheets come out in the same order. *)
Theorem mergeStylesheets_preserves_stream (sheets : list StylesheetAsset) :
  cssStream (mergeStylesheets sheets) = cssStream sheets.
Proof.
  unfold mergeStylesheets.
  enough (H : ∀ acc, cssStream (foldl mergeInlineCss acc sheets)
                     = cssStream acc ++ cssStream sheets) by apply (H []).
  induction sheets as [|current sheets IH]; intros acc.
  - by rewrite app_nil_r.
  - cbn [foldl]. rewrite IH, cssStream_mergeInlineCss, <- app_assoc.
    by rewrite <- cssStream_app.
Qed.

Lemma adjacentInline_snoc (l : list StylesheetAsset) (x : StylesheetAsset) :
  adjacentInline (l ++ [x])
  = adjacentInline l
    || match last l with
       | Some y => isInlineSheet y && isInlineSheet x
       | None => false
       end.
Proof.
  induction l as [|a l IH]; [reflexivity|].
  destruct l as [|b l].
  - cbn. by rewrite orb_false_r.
  - change (adjacentInline ((a :: b :: l) ++ [x]))
      with (isInlineSheet a && isInlineSheet b || adjacentInline ((b :: l) ++ [x])).
    rewrite IH. change (last (a :: b :: l)) with (last (b :: l)).
    change (adjacentInline (a :: b :: l))
      with (isInlineSheet a && isInlineSheet b || adjacentInline (b :: l)).
    by rewrite orb_assoc.
Qed.

Lemma adjacentInline_mergeInlineCss (acc : list StylesheetAsset) (current : StylesheetAsset) :
  adjacentInline acc = false → adjacentInline (mergeInlineCss acc current) = false.
Proof.
  destruct acc as [|lastAdded acc _] using rev_ind.
  - intros _. by rewrite mergeInlineCss_nil.
  - rewrite mergeInlineCss_snoc, adjacentInline_snoc. intros [Hacc Hlast]%orb_false_elim.
    destruct lastAdded as [lastContent|src], current as [content|src'].
    + rewrite adjacentInline_snoc, Hacc. exact Hlast.
    + change (acc ++ [InlineSheet lastContent; ExternalSheet src'])
        with (acc ++ [InlineSheet lastContent] ++ [ExternalSheet src']).
      rewrite app_assoc, !adjacentInline_snoc, Hacc, Hlast, last_snoc. reflexivity.
    + change (acc ++ [ExternalSheet src; InlineSheet content])
        with (acc ++ [ExternalSheet src] ++ [InlineSheet content]).
      rewrite app_assoc, !adjacentInline_snoc, Hacc, Hlast, last_snoc. reflexivity.
    + change (acc ++ [ExternalSheet src; ExternalSheet src'])
        with (acc ++ [ExternalSheet src] ++ [ExternalSheet src']).
      rewrite app_assoc, !adjacentInline_snoc, Hacc, Hlast, last_snoc. reflexivity.
Qed.

Lemma adjacentInline_foldl (acc sheets : list StylesheetAsset) :
  adjacentInline acc = false → adjacentInline (foldl mergeInlineCss acc sheets) = false.
Proof.
  revert acc. induction sheets as [|current sheets IH]; intros acc Hacc; [exact Hacc|].
  cbn [foldl]. by apply IH, adjacentInline_mergeInlineCss.
Qed.

(** X4.  After merging, no two inline stylesheets stand next to each
    other, whatever the input. *)
Theorem mergeStylesheets_no_adjacent_inline (sheets : list StylesheetAsset) :
  adjacentInline (mergeStylesheets sheets) = false.
Proof. unfold mergeStylesheets. by apply adjacentInline_foldl. Qed.

Lemma foldl_mergeInlineCss_merged (acc sheets : list StylesheetAsset) :
  adjacentInline (acc ++ sheets) = false →
  foldl mergeInlineCss acc sheets = acc ++ sheets.
Proof.
  revert acc. induction sheets as [|current sheets IH]; intros acc Hadj.
  - by rewrite app_nil_r.
  - cbn [foldl]. change (acc ++ current :: sheets) with (acc ++ [current] ++ sheets) in *.
    rewrite app_assoc in *.
    assert (Hsnoc : adjacentInline (acc ++ [current]) = false).
    { clear IH. revert Hadj. generalize (acc ++ [current]). intros l.
      induction sheets as [|x sheets IH] using rev_ind; [by rewrite app_nil_r|].
      rewrite app_assoc, adjacentInline_snoc. intros [H _]%orb_false_elim. by apply IH. }
    assert (Hmerge : mergeInlineCss acc current = acc ++ [current]).
    { rewrite adjacentInline_snoc in Hsnoc. apply orb_false_elim in Hsnoc as [_ Hlast].
      unfold mergeInlineCss. destruct (last acc) as [[lastContent|src]|];
        destruct current as [content|src']; try reflexivity; discriminate. }
    rewrite Hmerge. by apply IH.
Qed.

(** X5.  Merging is idempotent: a merged list of stylesheets is left as it
    is by a second merge. *)
Theorem mergeStylesheets_idempotent (sheets : list StylesheetAsset) :
  mergeStylesheets (mergeStylesheets sheets) = mergeStylesheets sheets.
Proof.
  unfold mergeStylesheets at 1.
  apply (foldl_mergeInlineCss_merged []). cbn [app]. by apply adjacentInline_foldl.
Qed.

(** ** Request URLs *)

Lemma removeTrailingForwardSlash_snoc (path : string) :
  Path.removeTrailingForwardSlash (path +:+ "/") = path.
Proof.
  induction path as [|c path IH]; [reflexivity|].
  change (String c path +:+ "/") with (String c (path +:+ "/")).
  destruct path as [|c' path']; [reflexivity|].
  change (Path.removeTrailingForwardSlash (String c (String c' path' +:+ "/")))
    with (String c (Path.removeTrailingForwardSlash (String c' path' +:+ "/"))).
  by rewrite IH.
Qed.

Lemma removeTrailingForwardSlash_id (path : string) :
  Js.endsWithSlash path = false → Path.removeTrailingForwardSlash path = path.
Proof.
  intros Hends. pose proof (removeTrailingForwardSlash_endsWithSlash path) as H.
  by rewrite Hends in H.
Qed.


(** X6.  For a page, the request URL does not depend on whether the
    pathname was enumerated with or without its trailing slash. *)
Theorem getUrlForPath_page_ignores_trailing_slash (pathname base origin : string)
    (format : BuildFormat) :
  Js.endsWithSlash pathname = false →
  getUrlForPath (pathname +:+ "/") base origin format page
  = getUrlForPath pathname base origin format page.
Proof.
  intros Hends. destruct pathname as [|c rest]; [reflexivity|].
  unfold getUrlForPath.
  assert (Hroot : String.eqb (String c rest) "/" = false).
  { apply String.eqb_neq. intros Heq. rewrite Heq in Hends. discriminate. }
  assert (Hroot' : String.eqb (String c rest +:+ "/") "/" = false).
  { apply String.eqb_neq. change (String c rest +:+ "/") with (String c (rest +:+ "/")).
    intros [= _ Hrest]. destruct rest; discriminate. }
  rewrite Hroot, Hroot'.
  change (String.eqb (String c rest +:+ "/") "") with false.
  change (String.eqb (String c rest) "") with false. cbn [orb].
  do 3 f_equal. unfold Path.removeLeadingForwardSlash, Js.dropLeadingSlash.
  change (String c rest +:+ "/") with (String c (rest +:+ "/")).
  destruct (Ascii.eqb c Js.slash) eqn:Hc; rewrite ?Hc.
  - rewrite removeTrailingForwardSlash_snoc. symmetry. apply removeTrailingForwardSlash_id.
    destruct rest as [|c' rest']; [|exact Hends].
    cbn in Hends. congruence.
  - change (String c (rest +:+ "/")) with (String c rest +:+ "/").
    rewrite removeTrailingForwardSlash_snoc. symmetry.
    by apply removeTrailingForwardSlash_id.
Qed.

Lemma getUrlForPath_trailing_slash_witness :
  getUrlForPath ("/blog" +:+ "/") "/docs/" "http://localhost" file page
  = getUrlForPath "/blog" "/docs/" "http://localhost" file page.
Proof.
  apply (getUrlForPath_page_ignores_trailing_slash "/blog" "/docs/" "http://localhost" file).
  reflexivity.
Defined.


(** ** What a computation appends to the trace *)

Lemma emits_ret {A} (P : Event → bool) (a : A) : emits P (mret a : Build A).
Proof. intros s. exists []. by rewrite app_nil_r. Qed.

Lemma emits_await {A} (P : Event → bool) (o : Outcome A) : emits P (await o).
Proof. intros s. exists []. by rewrite app_nil_r. Qed.

Lemma emits_throw {A} (P : Event → bool) (e : SSRError) : emits P (throw e : Build A).
Proof. intros s. exists []. by rewrite app_nil_r. Qed.

Lemma emits_emit (P : Event → bool) (e : Event) : P e = true → emits P (emit e).
Proof. intros He s. exists [e]. cbn. by rewrite He. Qed.

Lemma emits_bind {A B} (P : Event → bool) (m : Build A) (f : A → Build B) :
  emits P m → (∀ a, emits P (f a)) → emits P (m ≫= f).
Proof.
  intros Hm Hf s. unfold mbind, Build_bind. destruct (Hm s) as (events & Htrace & HP).
  destruct (m s) as [[a|e] s1]; cbn [snd] in *; [|eauto].
  destruct (Hf a s1) as (events' & Htrace' & HP').
  exists (events ++ events'). rewrite Htrace', Htrace, app_assoc. split; [done|].
  rewrite forallb_app. by rewrite HP, HP'.
Qed.

Lemma emits_try_catch {A} (P : Event → bool) (m : Build A) (h : SSRError → Build A) :
  emits P m → (∀ e, emits P (h e)) → emits P (try_catch m h).
Proof.
  intros Hm Hh s. unfold try_catch. destruct (Hm s) as (events & Htrace & HP).
  destruct (m s) as [[a|e] s1]; cbn [snd] in *; [eauto|].
  destruct (Hh e s1) as (events' & Htrace' & HP').
  exists (events ++ events'). rewrite Htrace', Htrace, app_assoc. split; [done|].
  rewrite forallb_app. by rewrite HP, HP'.
Qed.

Lemma emits_weaken {A} (P Q : Event → bool) (m : Build A) :
  (∀ e, P e = true → Q e = true) → emits P m → emits Q m.
Proof.
  intros HPQ Hm s. destruct (Hm s) as (events & Htrace & HP).
  exists events. split; [done|]. apply forallb_forall. intros e He.
  apply HPQ. by eapply forallb_forall in HP.
Qed.

Lemma emits_forEach {A} (P : Event → bool) (f : A → Build unit) (l : list A) :
  (∀ x, emits P (f x)) → emits P (forEach f l).
Proof.
  intros Hf. induction l as [|x l IH]; [apply emits_ret|].
  cbn [forEach]. apply emits_bind; [apply Hf | intros _; exact IH].
Qed.

Lemma emits_silent {A} (P : Event → bool) (m : Build A) :
  (∀ s, trace (snd (m s)) = trace s) → emits P m.
Proof. intros Hm s. exists []. by rewrite app_nil_r, Hm. Qed.

(** Events that fail [Q] are left alone by a computation that only emits
    events satisfying [P], when [P] and [Q] exclude each other. *)
Lemma emits_filter {A} (P Q : Event → bool) (m : Build A) (s : BuildState) :
  (∀ e, P e = true → Q e = false) → emits P m →
  filter Q (trace (snd (m s))) = filter Q (trace s).
Proof.
  intros HPQ Hm. destruct (Hm s) as (events & -> & HP). rewrite filter_app.
  rewrite <- (app_nil_r (filter Q (trace s))) at 2. f_equal.
  induction events as [|e events IH]; [reflexivity|].
  cbn in HP. apply andb_prop in HP as [He HP].
  rewrite filter_cons_False by (rewrite (HPQ e He); exact id). by apply IH.
Qed.

Lemma filter_snoc_true (f : Event → bool) (l : list Event) (e : Event) :
  f e = true → filter f (l ++ [e]) = filter f l ++ [e].
Proof. intros He. by rewrite filter_app, filter_cons_True by (rewrite He; exact I). Qed.

Lemma filter_snoc_false (f : Event → bool) (l : list Event) (e : Event) :
  f e = false → filter f (l ++ [e]) = filter f l.
Proof.
  intros He. rewrite filter_app, filter_cons_False by (rewrite He; exact id).
  apply app_nil_r.
Qed.

Ltac filter_trace :=
  repeat first [ rewrite filter_snoc_true by reflexivity
               | rewrite filter_snoc_false by reflexivity ];
  rewrite <- ?app_assoc.

(** ** The build hook *)

Lemma runHookBuildGenerated_logged (config : AstroConfig) (buildConfig : BuildConfig)
    (s : BuildState) :
  runHookBuildGenerated config buildConfig s
  = (Ok tt, logged (generatedHooks config buildConfig) s).
Proof.
  unfold runHookBuildGenerated, generatedHooks. fold (generatedDir config buildConfig).
  generalize (generatedDir config buildConfig). intros dir.
  revert s. induction (integrations config) as [|integration rest IH]; intros s.
  - destruct s. unfold logged. cbn. by rewrite app_nil_r.
  - cbn [forEach]. unfold mbind, Build_bind at 1. rewrite filter_cons.
    destruct (hook_build_generated integration) eqn:Hhook.
    + rewrite decide_True by exact I. unfold emit at 1. rewrite IH.
      unfold logged. cbn. by rewrite <- app_assoc.
    + rewrite decide_False by exact id. cbn. apply IH.
Qed.


(** ** One path *)

Section OnePath.

Context (E : Externals).

Ltac run_generatePath :=
  unfold renderedResponse, renderContextOf, pageOutcome, pageScriptResolved, outFileOf,
    outFolderOf, pageNameOf, fsEvents, generated in *;
  unfold generatePath, addPageName, throwIfRedirectNotAllowed, callMiddleware, getRouteCache;
  repeat match goal with
         | H : context [getUrlForPath ?a ?b ?c ?d ?e] |- _ =>
             let url := fresh "url" in set (url := getUrlForPath a b c d e) in *; clearbody url
         | |- context [getUrlForPath ?a ?b ?c ?d ?e] =>
             let url := fresh "url" in set (url := getUrlForPath a b c d e) in *; clearbody url
         end;
  run_build.

(** X9.  A response without a body is a no-op: when the render of a path,
    page or endpoint, yields an allowed response that carries no body,
    [generatePath] succeeds without creating a directory, writing a file
    or recording an output location. *)
Theorem generatePath_without_body pathname opts gopts middleware s response :
  pageScriptResolved E opts gopts = true →
  renderedResponse E pathname opts gopts middleware s = Some response →
  isRedirectAllowed E response (config (settings opts)) = true →
  resp_body response = None →
  fst (generatePath E pathname opts gopts middleware s) = Ok tt ∧
  fsEvents (snd (generatePath E pathname opts gopts middleware s)) = fsEvents s ∧
  distURL (snd (generatePath E pathname opts gopts middleware s)) = distURL s.
Proof.
  intros Hscript Hrender Hpolicy Hbody. run_generatePath; try done.
  all: try (apply bool_decide_eq_true in Hscript as [? ?]; congruence).
  all: try congruence.
  all: by rewrite !fsEvents_snoc_other by reflexivity.
Qed.





(** X13.  When a page-stage script is injected but the bundle has no entry
    for it, [generatePath] fails before anything is rendered or written. *)
Theorem generatePath_missing_page_script pathname opts gopts middleware s :
  existsb isPageStage (scripts (settings opts)) = true →
  entryMap_get (PAGE_SCRIPT_ID E) (entrySpecifierToBundleMap (go_internals gopts)) = None →
  let s' := snd (generatePath E pathname opts gopts middleware s) in
  fst (generatePath E pathname opts gopts middleware s)
  = Throw (plainError ("Cannot find the built path for " +:+ PAGE_SCRIPT_ID E)) ∧
  filter isRenderEvent (trace s') = filter isRenderEvent (trace s) ∧
  fsEvents s' = fsEvents s.
Proof.
  intros Hscripts Hentry. cbv zeta. run_generatePath; try done.
  all: try congruence.
  all: filter_trace; done.
Qed.

(** X14.  Whatever becomes of the render, [generatePath] records the name
    of a page exactly once, before anything can fail, and never records a
    name for an endpoint; and it logs the pathname it was entered for
    exactly once. *)
Theorem generatePath_page_name pathname opts gopts middleware s :
  let s' := snd (generatePath E pathname opts gopts middleware s) in
  pageNames s'
  = match rtype (pd_route (go_pageData gopts)) with
    | page => pageNames s ++ [pageNameOf pathname opts]
    | endpoint => pageNames s
    end ∧
  generated s' = generated s ++ [pathname].
Proof.
  cbv zeta. run_generatePath; try done.
  all: unfold omap; rewrite ?omap_app; cbn; rewrite ?app_nil_r, <- ?app_assoc; done.
Qed.

End OnePath.

Lemma generatePath_without_body_witness :
  let E := Cases.externals (Ok Cases.noContent) (Ok (EndpointResponse Cases.noContent))
             (Ok {| staticPaths := [] |}) in
  let run := generatePath E "/blog" (Demo.options output_static) (Demo.gopts Demo.blogRoute)
               None in
  fst (run Demo.start) = Ok tt ∧
  fsEvents (snd (run Demo.start)) = fsEvents Demo.start ∧
  distURL (snd (run Demo.start)) = distURL Demo.start.
Proof.
  apply (generatePath_without_body
           (Cases.externals (Ok Cases.noContent) (Ok (EndpointResponse Cases.noContent))
              (Ok {| staticPaths := [] |}))
           "/blog" (Demo.options output_static) (Demo.gopts Demo.blogRoute) None Demo.start
           Cases.noContent); reflexivity.
Defined.




Lemma generatePath_missing_page_script_witness :
  let run := generatePath Demo.externals "/blog" Cases.withPageScript
               (Demo.gopts Demo.blogRoute) None in
  let s' := snd (run Demo.start) in
  fst (run Demo.start)
  = Throw (plainError ("Cannot find the built path for " +:+ PAGE_SCRIPT_ID Demo.externals)) ∧
  filter isRenderEvent (trace s') = filter isRenderEvent (trace Demo.start) ∧
  fsEvents s' = fsEvents Demo.start.
Proof.
  apply (generatePath_missing_page_script Demo.externals "/blog" Cases.withPageScript
           (Demo.gopts Demo.blogRoute) None Demo.start); reflexivity.
Defined.

(** ** One page *)

Section OnePage.

Context (E : Externals).

Lemma getPathsForRoute_emits pageData mod_ opts :
  emits isResolveEvent (getPathsForRoute E pageData mod_ opts).
Proof.
  unfold getPathsForRoute. destruct (Js.truthy _) as [p|].
  - by apply emits_silent.
  - apply emits_bind.
    + apply emits_try_catch.
      * apply emits_bind.
        -- unfold callGetStaticPaths. apply emits_bind; [by apply emits_emit|].
           intros _. apply emits_await.
        -- intros result. apply emits_bind; [by apply emits_emit|].
           intros _. apply emits_ret.
      * intros err. apply emits_bind; [by apply emits_emit|]. intros _. apply emits_throw.
    + intros result. apply emits_bind; [by apply emits_silent|]. intros _.
      apply emits_bind; [by apply emits_silent|]. intros builtPaths.
      apply emits_bind; [apply emits_await|]. intros paths.
      apply emits_bind; [|intros _; apply emits_ret].
      apply emits_forEach. intros staticPath. by apply emits_silent.
Qed.

Lemma generatePath_emits pathname opts gopts middleware :
  emits isPathEvent (generatePath E pathname opts gopts middleware).
Proof.
  intros s. unfold generatePath, addPageName, throwIfRedirectNotAllowed, callMiddleware,
    getRouteCache.
  set (url := getUrlForPath _ _ _ _ _). clearbody url.
  run_build.
  all: eexists; split; [rewrite <- ?app_assoc; reflexivity | reflexivity].
Qed.

Lemma generatePath_generated pathname opts gopts middleware s :
  generated (snd (generatePath E pathname opts gopts middleware s)) = generated s ++ [pathname].
Proof.
  unfold generated, generatePath, addPageName, throwIfRedirectNotAllowed, callMiddleware,
    getRouteCache.
  set (url := getUrlForPath _ _ _ _ _). clearbody url.
  run_build.
  all: unfold omap; rewrite ?omap_app; cbn; rewrite ?app_nil_r, <- ?app_assoc; done.
Qed.

Lemma isPathEvent_isPageEvent e : isPathEvent e = true → isPageEvent e = true.
Proof. unfold isPageEvent. by intros ->. Qed.

Lemma isResolveEvent_isPageEvent e : isResolveEvent e = true → isPageEvent e = true.
Proof. unfold isPageEvent. intros ->. by rewrite orb_true_r. Qed.

Lemma generatePage_loop_emits opts gopts middleware paths :
  emits isPageEvent (generatePage_loop E opts gopts middleware paths).
Proof.
  induction paths as [|path rest IH]; [apply emits_ret|].
  cbn [generatePage_loop]. apply emits_bind.
  - eapply emits_weaken; [apply isPathEvent_isPageEvent | apply generatePath_emits].
  - intros _. apply emits_bind; [by apply emits_emit | intros _; exact IH].
Qed.

Lemma generatePage_emits opts internals pageData ssrEntry :
  emits isPageEvent (generatePage E opts internals pageData ssrEntry).
Proof.
  unfold generatePage. destruct (sp_page ssrEntry) as [pageModulePromise|];
    [|apply emits_throw].
  apply emits_bind; [apply emits_await|]. intros pageModule.
  destruct (shouldSkipDraft pageModule (settings opts)); [by apply emits_emit|].
  apply emits_bind; [by apply emits_emit|]. intros _.
  apply emits_bind.
  - eapply emits_weaken; [apply isResolveEvent_isPageEvent | apply getPathsForRoute_emits].
  - intros paths. apply generatePage_loop_emits.
Qed.

(** X15.  Resolving the paths of a route neither renders nor writes, for
    every route and every outcome of the enumeration; generating a whole
    page never invokes a build hook and never imports a module. *)
Theorem resolution_and_page_effects pageData mod_ opts internals ssrEntry s :
  let resolved := snd (getPathsForRoute E pageData mod_ opts s) in
  let generatedPage := snd (generatePage E opts internals pageData ssrEntry s) in
  filter isRenderEvent (trace resolved) = filter isRenderEvent (trace s) ∧
  fsEvents resolved = fsEvents s ∧
  pageNames resolved = pageNames s ∧
  filter isClosingEvent (trace generatedPage) = filter isClosingEvent (trace s) ∧
  filter isImportEvent (trace generatedPage) = filter isImportEvent (trace s).
Proof.
  cbv zeta. split; [|split; [|split; [|split]]].
  - apply (emits_filter isResolveEvent); [by intros [[]| | | | | | | | |] | ].
    apply getPathsForRoute_emits.
  - apply (emits_filter isResolveEvent isFsEvent); [by intros [[]| | | | | | | | |] | ].
    apply getPathsForRoute_emits.
  - unfold getPathsForRoute, callGetStaticPaths. destruct (Js.truthy _) as [p|]; [done|].
    unfold_build.
    destruct (enumerateStaticPaths E mod_ _ _) as [result|e]; simpl_state; [|done].
    destruct (filterStaticPaths _ _ _ _) as [paths|e]; simpl_state; [|done].
    by rewrite forEach_builtPaths_add.
  - apply (emits_filter isPageEvent); [by intros [[]| | | | | | | | |] | ].
    apply generatePage_emits.
  - apply (emits_filter isPageEvent); [by intros [[]| | | | | | | | |] | ].
    apply generatePage_emits.
Qed.

(** X16.  When the enumeration callback of a dynamic route fails, the
    failure aborts the page unchanged: [generatePage] rethrows the very
    error after logging the route, the call and the failure, and nothing is
    cached, registered as built, rendered or written. *)
Theorem generatePage_enumeration_failure opts internals pageData ssrEntry pageModule s err :
  sp_page ssrEntry = Some (Ok pageModule) →
  shouldSkipDraft pageModule (settings opts) = false →
  Js.truthy (pathname (pd_route pageData)) = None →
  enumerateStaticPaths E pageModule (pd_route pageData) (isSSR E (config (settings opts)))
  = Throw err →
  generatePage E opts internals pageData ssrEntry s
  = (Throw err,
     logged [ Logged (LogRoute (rtype (pd_route pageData)) (component (pd_route pageData)));
              CalledGetStaticPaths (rid (pd_route pageData))
                (isSSR E (config (settings opts)));
              Logged (DebugStaticPathsFailed (component (pd_route pageData))) ] s).
Proof.
  intros Hpage Hdraft Hdynamic Henum.
  unfold generatePage, getPathsForRoute, callGetStaticPaths. rewrite Hpage.
  unfold_build. rewrite Hdraft, Hdynamic. simpl_state. rewrite Henum.
  unfold logged. simpl_state. by rewrite <- !app_assoc.
Qed.

(** X17.  The paths of a page are generated in enumeration order, each
    one once and none skipped: the pathnames [generatePath] was entered
    for are a prefix of the list: the whole list when the loop succeeds,
    a non-empty prefix when it fails. *)
Theorem generatePage_loop_order opts gopts middleware paths s :
  ∃ k,
    generated (snd (generatePage_loop E opts gopts middleware paths s))
    = generated s ++ take k paths ∧
    (fst (generatePage_loop E opts gopts middleware paths s) = Ok tt → k = length paths) ∧
    (∀ err, fst (generatePage_loop E opts gopts middleware paths s) = Throw err →
            0 < k ≤ length paths).
Proof.
  revert s. induction paths as [|path rest IH]; intros s.
  - exists 0. cbn. rewrite app_nil_r. split; [done|]. split; [done|]. discriminate.
  - pose proof (generatePath_generated path opts gopts middleware s) as Hpath.
    assert (Hstep : generatePage_loop E opts gopts middleware (path :: rest) s
                    = match generatePath E path opts gopts middleware s with
                      | (Ok _, s1) =>
                          generatePage_loop E opts gopts middleware rest
                            (logged [Logged (LogPathLine (bool_decide (rest = []))
                                               (getOutputFilename E (config (settings opts)) path
                                                  (rtype (pd_route (go_pageData gopts)))))] s1)
                      | (Throw e, s1) => (Throw e, s1)
                      end) by reflexivity.
    rewrite Hstep. clear Hstep.
    destruct (generatePath E path opts gopts middleware s) as [[[]|e] s1]; cbn [snd] in Hpath.
    + match goal with
      | |- context [generatePage_loop E opts gopts middleware rest ?s2] =>
          destruct (IH s2) as (k & Hgen & Hok & Hthrow);
          assert (Hs2 : generated s2 = generated s1)
      end.
      { unfold generated, logged. simpl_state. unfold omap. rewrite omap_app. cbn.
        apply app_nil_r. }
      exists (S k). rewrite Hgen, Hs2, Hpath, <- app_assoc. cbn [take app length].
      split; [done|]. split.
      * intros H. f_equal. by apply Hok.
      * intros err H. specialize (Hthrow err H). lia.
    + exists 1. cbn [fst snd take]. rewrite Hpath. cbn [take].
      split; [done|]. split; [discriminate|]. intros err _. cbn [length]. lia.
Qed.

End OnePage.

Lemma generatePage_enumeration_failure_witness :
  let E := Cases.externals (Ok Cases.noContent) (Ok (EndpointResponse Cases.noContent))
             (Throw Cases.failure) in
  generatePage E (Demo.options output_static) (Demo.internalsOf [] [Demo.slugRoute])
    (Demo.pageOf Demo.slugRoute) Demo.builtModule Demo.start
  = (Throw Cases.failure,
     logged [ Logged (LogRoute page "src/pages/[slug].astro");
              CalledGetStaticPaths 1 false;
              Logged (DebugStaticPathsFailed "src/pages/[slug].astro") ] Demo.start).
Proof.
  apply (generatePage_enumeration_failure
           (Cases.externals (Ok Cases.noContent) (Ok (EndpointResponse Cases.noContent))
              (Throw Cases.failure))
           (Demo.options output_static) (Demo.internalsOf [] [Demo.slugRoute])
           (Demo.pageOf Demo.slugRoute) Demo.builtModule Demo.plainModule Demo.start
           Cases.failure); reflexivity.
Defined.

(** ** The whole build *)

Lemma bind_run {A B} (m : Build A) (f : A → Build B) (s : BuildState) :
  (m ≫= f) s = match m s with
               | (Ok a, s') => f a s'
               | (Throw e, s') => (Throw e, s')
               end.
Proof. reflexivity. Qed.

Lemma hasPrerenderedPages_loop_true (pages : list PageBuildData) :
  hasPrerenderedPages_loop pages = true ↔
  ∃ pageData, pageData ∈ pages ∧ prerender (pd_route pageData) = true.
Proof.
  induction pages as [|pageData pages IH].
  - split; [discriminate|]. intros (pageData & Hin & _). by apply elem_of_nil in Hin.
  - cbn. destruct (prerender (pd_route pageData)) eqn:Hpre.
    + split; [|done]. intros _. exists pageData. split; [apply list_elem_of_here | done].
    + rewrite IH. split.
      * intros (pd & Hin & Hpd). exists pd. split; [by apply list_elem_of_further | done].
      * intros (pd & Hin & Hpd). apply elem_of_cons in Hin as [-> | Hin]; [congruence|].
        by exists pd.
Qed.

(** X18.  [hasPrerenderedPages] answers [true] exactly when some page
    registered in [pagesByComponent] has a prerendered route. *)
Theorem hasPrerenderedPages_exists (internals : BuildInternals) :
  hasPrerenderedPages internals = true ↔
  ∃ component pageData,
    pagesByComponent internals !! component = Some pageData ∧
    prerender (pd_route pageData) = true.
Proof.
  unfold hasPrerenderedPages, eachPageData. rewrite hasPrerenderedPages_loop_true. split.
  - intros (pageData & Hin & Hpre). apply list_elem_of_fmap in Hin as ([c pd] & -> & Hin).
    apply elem_of_map_to_list in Hin. by exists c, pd.
  - intros (c & pd & Hlookup & Hpre). exists pd. split; [|done].
    apply list_elem_of_fmap. exists (c, pd). split; [done|]. by apply elem_of_map_to_list.
Qed.

Section WholeBuild.

Context (E : Externals).

Lemma eachPageDataFromEntryPoint_ext internals entries body body' :
  (∀ pageData filePath s, body pageData filePath s = body' pageData filePath s) →
  ∀ s, eachPageDataFromEntryPoint E internals entries body s
       = eachPageDataFromEntryPoint E internals entries body' s.
Proof.
  intros Hbody. induction entries as [|[entryPoint filePath] rest IH]; intros s; [reflexivity|].
  cbn [eachPageDataFromEntryPoint]. rewrite !bind_run.
  destruct (Js.includes _ _); [|apply IH].
  destruct (Js.splitColon entryPoint) as [|first [|pageName others]]; try reflexivity.
  destruct (pagesByComponent internals !! _) as [pageData|]; [|reflexivity].
  rewrite Hbody. destruct (body' pageData filePath s) as [[[]|e] s1]; [apply IH | reflexivity].
Qed.

(** X19.  Only the page entries of the bundle map are visited: entries
    whose specifier does not contain the page-module marker (client
    scripts, renderers) have no effect on generation, wherever they stand
    in the map. *)
Theorem eachPageDataFromEntryPoint_page_entries internals entries body s :
  eachPageDataFromEntryPoint E internals entries body s
  = eachPageDataFromEntryPoint E internals
      (filter (λ entry, Js.includes (ASTRO_PAGE_MODULE_ID E) (fst entry)) entries) body s.
Proof.
  revert s. induction entries as [|[entryPoint filePath] rest IH]; intros s; [reflexivity|].
  cbn [eachPageDataFromEntryPoint]. rewrite bind_run.
  destruct (Js.includes (ASTRO_PAGE_MODULE_ID E) entryPoint) eqn:Hmarked.
  - rewrite filter_cons_True by (cbn [fst]; rewrite Hmarked; exact I).
    cbn [eachPageDataFromEntryPoint]. rewrite bind_run, Hmarked.
    match goal with
    | |- match ?m s with _ => _ end = _ => destruct (m s) as [[[]|e] s1]
    end; [apply IH | reflexivity].
  - rewrite filter_cons_False by (cbn [fst]; rewrite Hmarked; exact id). apply IH.
Qed.

(** X20.  In server output the pages rendered on demand are passed over:
    the loop of [generatePages] that tests [route.prerender] does what the
    loop of a static build does on the bundle map without the entries of
    on-demand pages. *)
Theorem generatePages_skips_on_demand_pages opts internals outFolder entries s :
  eachPageDataFromEntryPoint E internals entries
    (λ pageData filePath,
       if prerender (pd_route pageData)
       then emit (Imported filePath) ;;
            ssrEntryPage ← await (importEntry E outFolder filePath);
            generatePage E opts internals pageData ssrEntryPage
       else mret tt) s
  = eachPageDataFromEntryPoint E internals
      (filter (λ entry, negb (isOnDemandEntry E internals entry)) entries)
      (λ pageData filePath,
         emit (Imported filePath) ;;
         ssrEntryPage ← await (importEntry E outFolder filePath);
         generatePage E opts internals pageData ssrEntryPage) s.
Proof.
  revert s. induction entries as [|[entryPoint filePath] rest IH]; intros s; [reflexivity|].
  cbn [eachPageDataFromEntryPoint]. rewrite bind_run.
  destruct (isOnDemandEntry E internals (entryPoint, filePath)) eqn:Hdemand.
  - rewrite filter_cons_False by (rewrite Hdemand; exact id).
    unfold isOnDemandEntry in Hdemand. cbn [fst] in Hdemand.
    destruct (Js.includes (ASTRO_PAGE_MODULE_ID E) entryPoint); [|discriminate].
    destruct (Js.splitColon entryPoint) as [|first [|pageName others]]; try discriminate.
    destruct (pagesByComponent internals !! _) as [pageData|]; [|discriminate].
    destruct (prerender (pd_route pageData)); [discriminate|]. apply IH.
  - rewrite filter_cons_True by (rewrite Hdemand; exact I).
    cbn [eachPageDataFromEntryPoint]. rewrite bind_run.
    unfold isOnDemandEntry in Hdemand. cbn [fst] in Hdemand.
    destruct (Js.includes (ASTRO_PAGE_MODULE_ID E) entryPoint); [|apply IH].
    destruct (Js.splitColon entryPoint) as [|first [|pageName others]]; try reflexivity.
    destruct (pagesByComponent internals !! _) as [pageData|]; [|reflexivity].
    destruct (prerender (pd_route pageData)); [|discriminate].
    match goal with
    | |- match ?m s with _ => _ end = _ => destruct (m s) as [[[]|e] s1]
    end; [apply IH | reflexivity].
Qed.

Lemma eachPageDataFromEntryPoint_emits (P : Event → bool) internals entries body :
  (∀ pageData filePath, emits P (body pageData filePath)) →
  emits P (eachPageDataFromEntryPoint E internals entries body).
Proof.
  intros Hbody. induction entries as [|[entryPoint filePath] rest IH]; [apply emits_ret|].
  cbn [eachPageDataFromEntryPoint]. apply emits_bind; [|intros _; exact IH].
  destruct (Js.includes _ _); [|apply emits_ret].
  destruct (Js.splitColon entryPoint) as [|first [|pageName others]]; try apply emits_throw.
  destruct (pagesByComponent internals !! _) as [pageData|]; [apply Hbody | apply emits_throw].
Qed.

Lemma isPageEvent_not_closing e : isPageEvent e = true → negb (isClosingEvent e) = true.
Proof. by destruct e as [[]| | | | | | | | |]. Qed.

Lemma importAndGenerate_emits opts internals outFolder pageData filePath :
  emits (λ e, negb (isClosingEvent e))
    (emit (Imported filePath) ;;
     ssrEntryPage ← await (importEntry E outFolder filePath);
     generatePage E opts internals pageData ssrEntryPage).
Proof.
  apply emits_bind; [by apply emits_emit|]. intros _.
  apply emits_bind; [apply emits_await|]. intros ssrEntryPage.
  eapply emits_weaken; [apply isPageEvent_not_closing | apply generatePage_emits].
Qed.

Lemma generateImage_emits path : emits (λ e, negb (isClosingEvent e)) (generateImage E path).
Proof.
  unfold generateImage. apply emits_bind; [by apply emits_emit|]. intros _.
  apply emits_bind; [apply emits_await|]. intros [cached|]; [by apply emits_emit|].
  apply emits_ret.
Qed.

(** Unless it returns at once, [generatePages] runs a generation phase
    that emits no closing event, and then, only if that phase succeeded,
    the build hooks and the closing log line. *)
Lemma generatePages_phases opts internals s :
  isSSR E (config (settings opts)) && negb (hasPrerenderedPages internals) = false →
  ∃ events s1,
    forallb (λ e, negb (isClosingEvent e)) events = true ∧
    trace s1 = trace s ++ events ∧
    ((∃ err, generatePages E opts internals s = (Throw err, s1)) ∨
     generatePages E opts internals s
     = (Ok tt, logged (generatedHooks (config (settings opts)) (buildConfig opts)
                         ++ [Logged LogCompleted]) s1)).
Proof.
  intros Hearly.
  destruct (generatePages E opts internals s) as [o final] eqn:Hrun.
  unfold generatePages in Hrun. rewrite Hearly in Hrun.
  set (pages := if isSSR E (config (settings opts)) then _ else _) in Hrun.
  set (images := if experimental_assets (config (settings opts)) then _ else _) in Hrun.
  assert (Hpages : emits (λ e, negb (isClosingEvent e)) pages).
  { unfold pages. destruct (isSSR E (config (settings opts)));
      apply eachPageDataFromEntryPoint_emits; intros pageData filePath.
    - destruct (prerender (pd_route pageData)); [apply importAndGenerate_emits|].
      apply emits_ret.
    - apply importAndGenerate_emits. }
  assert (Himages : emits (λ e, negb (isClosingEvent e)) images).
  { unfold images. destruct (experimental_assets (config (settings opts)));
      [|apply emits_ret].
    apply emits_bind; [by apply emits_emit|]. intros _.
    apply emits_bind; [|intros _; by apply emits_emit].
    apply emits_forEach, generateImage_emits. }
  clearbody pages images.
  rewrite bind_run in Hrun. unfold emit at 1 in Hrun. rewrite bind_run in Hrun.
  unfold setBuiltPaths at 1 in Hrun.
  cbn [builtPaths routeCache pageNames distURL trace fst snd] in Hrun.
  rewrite bind_run in Hrun.
  match type of Hrun with
  | context [pages ?s2] =>
      destruct (Hpages s2) as (events1 & Htrace1 & HP1);
      destruct (pages s2) as [[[]|err] s3]
  end; cbn [builtPaths routeCache pageNames distURL trace fst snd] in *.
  - rewrite bind_run in Hrun.
    destruct (Himages s3) as (events2 & Htrace2 & HP2).
    destruct (images s3) as [[[]|err] s4];
      cbn [builtPaths routeCache pageNames distURL trace fst snd] in *.
    + rewrite bind_run, runHookBuildGenerated_logged in Hrun.
      unfold emit, logged in Hrun.
      cbn [builtPaths routeCache pageNames distURL trace fst snd] in Hrun.
      injection Hrun as <- <-.
      exists ([Logged (LogHeading (if isSSR E (config (settings opts))
                                    then "prerendering" else "generating"))]
              ++ events1 ++ events2), s4.
      split; [by rewrite !forallb_app, HP1, HP2|].
      split; [by rewrite Htrace2, Htrace1, <- !app_assoc|].
      right. unfold logged. by rewrite <- app_assoc.
    + injection Hrun as <- <-.
      exists ([Logged (LogHeading (if isSSR E (config (settings opts))
                                    then "prerendering" else "generating"))]
              ++ events1 ++ events2), s4.
      split; [by rewrite !forallb_app, HP1, HP2|].
      split; [by rewrite Htrace2, Htrace1, <- !app_assoc|]. left. by exists err.
  - injection Hrun as <- <-.
    exists ([Logged (LogHeading (if isSSR E (config (settings opts))
                                  then "prerendering" else "generating"))]
            ++ events1), s3.
    split; [by rewrite !forallb_app, HP1|].
    split; [by rewrite Htrace1, <- !app_assoc|]. left. by exists err.
Qed.

Lemma filter_closing_none (events : list Event) :
  forallb (λ e, negb (isClosingEvent e)) events = true → filter isClosingEvent events = [].
Proof.
  induction events as [|e events IH]; [done|]. cbn [forallb]. intros [He Hrest]%andb_prop.
  rewrite filter_cons_False by (destruct (isClosingEvent e); [discriminate | exact id]).
  by apply IH.
Qed.


(** X22.  A build that succeeds without returning at once ends with the
    build hooks and the closing log line: every integration that declares
    [astro:build:generated] is invoked once, in configuration order,
    after everything else and before "Completed", and no hook ran
    earlier. *)
Theorem generatePages_success_ends_with_hooks opts internals s :
  isSSR E (config (settings opts)) = false ∨ hasPrerenderedPages internals = true →
  fst (generatePages E opts internals s) = Ok tt →
  ∃ events,
    trace (snd (generatePages E opts internals s))
    = trace s ++ events
      ++ generatedHooks (config (settings opts)) (buildConfig opts)
      ++ [Logged LogCompleted] ∧
    filter isClosingEvent events = [].
Proof.
  intros Hmode Hok.
  assert (Hearly : isSSR E (config (settings opts)) && negb (hasPrerenderedPages internals)
                   = false).
  { destruct Hmode as [-> | ->]; [reflexivity|]. apply andb_false_r. }
  destruct (generatePages_phases opts internals s Hearly)
    as (events & s1 & HP & Htrace & [[err' Hrun] | Hrun]); rewrite Hrun in *;
    [discriminate|].
  exists events. unfold logged. simpl_state. rewrite Htrace, <- app_assoc.
  split; [reflexivity|]. by apply filter_closing_none.
Qed.

(** X23.  The Built-Paths Set is fresh for every build: unless
    [generatePages] returns at once, what the set held before the call has
    no influence on the outcome nor on the final state. *)
Theorem generatePages_fresh_builtPaths opts internals s (stale : gset string) :
  isSSR E (config (settings opts)) = false ∨ hasPrerenderedPages internals = true →
  generatePages E opts internals (snd (setBuiltPaths stale s))
  = generatePages E opts internals s.
Proof.
  intros Hmode.
  assert (Hearly : isSSR E (config (settings opts)) && negb (hasPrerenderedPages internals)
                   = false).
  { destruct Hmode as [-> | ->]; [reflexivity|]. apply andb_false_r. }
  unfold generatePages. rewrite Hearly.
  rewrite !(bind_run (emit _)). unfold emit at 1 3.
  rewrite !(bind_run (setBuiltPaths _)). reflexivity.
Qed.

End WholeBuild.

(** ** What resolution and generation leave alone *)


Section Frames.

Context (E : Externals).

(** X24.  Resolving the paths of a route never touches the Route Cache
    entry of another route nor any recorded output location; for a route
    with a fixed pathname, and when the enumeration fails, the Route Cache
    is left exactly as it was. *)
Theorem getPathsForRoute_cache_frame pageData mod_ opts s :
  let s' := snd (getPathsForRoute E pageData mod_ opts s) in
  (∀ r, r ≠ rid (pd_route pageData) → routeCache s' !! r = routeCache s !! r) ∧
  (is_Some (Js.truthy (pathname (pd_route pageData))) → routeCache s' = routeCache s) ∧
  (∀ err, fst (getPathsForRoute E pageData mod_ opts s) = Throw err →
          enumerateStaticPaths E mod_ (pd_route pageData) (isSSR E (config (settings opts)))
          = Throw err →
          routeCache s' = routeCache s) ∧
  distURL s' = distURL s.
Proof.
  cbv zeta. unfold getPathsForRoute, callGetStaticPaths.
  destruct (Js.truthy (pathname (pd_route pageData))) as [p|].
  - repeat split; done.
  - unfold_build.
    destruct (enumerateStaticPaths E mod_ _ _) as [result|e]; simpl_state.
    + destruct (filterStaticPaths _ _ _ _) as [paths|e]; simpl_state.
      * rewrite forEach_builtPaths_add. unfold setBuiltPaths. simpl_state.
        split; [intros r Hr; by apply lookup_insert_ne|].
        split; [by intros [? ?]|]. split; [discriminate|done].
      * split; [intros r Hr; by apply lookup_insert_ne|].
        split; [by intros [? ?]|]. split; [|done]. intros err _ Herr. discriminate.
    + repeat split; first [done | by intros [? ?]].
Qed.

(** X25.  A page is skipped only for the boolean [draft: true] with
    drafts disabled: with drafts enabled, or for any other frontmatter, a
    page whose module loads is generated, [generatePage] logging the route
    before it resolves its paths. *)
Theorem generatePage_not_skipped opts internals pageData ssrEntry pageModule s :
  sp_page ssrEntry = Some (Ok pageModule) →
  markdown_drafts (config (settings opts)) = true
  ∨ frontmatter pageModule ≠ Some (Some (draft_bool true)) →
  ∃ events,
    trace (snd (generatePage E opts internals pageData ssrEntry s))
    = trace s
      ++ Logged (LogRoute (rtype (pd_route pageData)) (component (pd_route pageData)))
      :: events ∧
    forallb isPageEvent events = true.
Proof.
  intros Hpage Hkeep.
  assert (Hskip : shouldSkipDraft pageModule (settings opts) = false).
  { unfold shouldSkipDraft. destruct Hkeep as [-> | Hfm]; [reflexivity|].
    destruct (frontmatter pageModule) as [[[| [] |]|]|]; try apply andb_false_r.
    by destruct Hfm. }
  unfold generatePage. rewrite Hpage, bind_run. unfold await at 1. rewrite Hskip, bind_run.
  unfold emit at 1.
  match goal with
  | |- context [(getPathsForRoute E pageData pageModule opts ≫= ?k) ?s1] =>
      assert (Hrest : emits isPageEvent (getPathsForRoute E pageData pageModule opts ≫= k));
      [|destruct (Hrest s1) as (events & Htrace & HP)]
  end.
  { apply emits_bind.
    - eapply emits_weaken; [apply isResolveEvent_isPageEvent | apply getPathsForRoute_emits].
    - intros paths. apply generatePage_loop_emits. }
  exists events. split; [|exact HP]. rewrite Htrace. simpl_state. by rewrite <- app_assoc.
Qed.


End Frames.

(** ** Instances on the small site, continued *)


Lemma generatePages_success_witness :
  let opts := Demo.options output_static in
  ∃ events,
    trace (snd (generatePages Demo.externals opts Demo.restFirst Demo.start))
    = trace Demo.start ++ events
      ++ generatedHooks (config (settings opts)) (buildConfig opts)
      ++ [Logged LogCompleted] ∧
    filter isClosingEvent events = [].
Proof.
  apply (generatePages_success_ends_with_hooks Demo.externals (Demo.options output_static)
           Demo.restFirst Demo.start).
  - left. reflexivity.
  - by vm_compute.
Defined.

Lemma generatePages_fresh_builtPaths_witness :
  generatePages Demo.externals (Demo.options output_static) Demo.restFirst
    (snd (setBuiltPaths {[ "/x" ]} Demo.start))
  = generatePages Demo.externals (Demo.options output_static) Demo.restFirst Demo.start.
Proof.
  apply (generatePages_fresh_builtPaths Demo.externals (Demo.options output_static)
           Demo.restFirst Demo.start {[ "/x" ]}).
  left. reflexivity.
Defined.

Lemma generatePage_not_skipped_witness :
  ∃ events,
    trace (snd (generatePage Demo.externals (Demo.options output_server)
                  (Demo.internalsOf [] [Demo.blogRoute]) (Demo.pageOf Demo.blogRoute)
                  Demo.builtModule Demo.start))
    = trace Demo.start
      ++ Logged (LogRoute (rtype (pd_route (Demo.pageOf Demo.blogRoute)))
                   (component (pd_route (Demo.pageOf Demo.blogRoute))))
      :: events ∧
    forallb isPageEvent events = true.
Proof.
  apply (generatePage_not_skipped Demo.externals (Demo.options output_server)
           (Demo.internalsOf [] [Demo.blogRoute]) (Demo.pageOf Demo.blogRoute)
           Demo.builtModule Demo.plainModule Demo.start).
  - reflexivity.
  - right. discriminate.
Defined.

